(** * CineReads: the GPT recommendation service

    A shallow embedding of [backend/app/services/gpt_service.py]
    (class [GPTService]) and the properties of its prompt construction,
    reply parsing, repair and fallback logic.

    Conventions of the embedding.
    - A Python [str] is a [string]: the sequence of its UTF-8 bytes.  Every
      pattern the service searches for is ASCII, so searching, counting and
      slicing at the positions found agree with Python's code-point view.
    - Python integers are [Z]; [str.find] and [str.rfind] answer [-1] when
      nothing is found, and slices take negative indices as Python does.
    - A [float] literal is the rational it denotes ([Q]); the service only
      stores and returns these numbers, it never computes with them.
    - A raised exception is a value: [Raise e] of the type [result]. *)

From Stdlib Require Import String Ascii List ZArith QArith Lia Bool DecimalString.
Import ListNotations.

Set Warnings "-register-all".

Local Open Scope string_scope.
Local Open Scope Z_scope.

(** ** Python strings *)

Module PyStr.

Definition chr (n : nat) : ascii := ascii_of_nat n.

Definition LF : ascii := chr 10.
Definition CR : ascii := chr 13.
Definition DQUOTE : ascii := chr 34.
Definition LBRACE : ascii := chr 123.
Definition RBRACE : ascii := chr 125.

Definition len (s : string) : Z := Z.of_nat (String.length s).

(** [str.isspace] on one character, restricted to the ASCII range:
    TAB, LF, VT, FF, CR, FS, GS, RS, US and SPACE.  The spaces of Unicode
    beyond ASCII, which [strip] removes as well, are left out; none of them
    is a brace, a quote or a backtick. *)
Definition isspace (c : ascii) : bool :=
  let n := nat_of_ascii c in
  ((9 <=? n) && (n <=? 13) || (28 <=? n) && (n <=? 32))%nat.

Fixpoint lstrip (s : string) : string :=
  match s with
  | String c s' => if isspace c then lstrip s' else s
  | EmptyString => EmptyString
  end.

(** [rstrip] keeps a character when it is not a space or when something
    is left after it. *)
Fixpoint rstrip (s : string) : string :=
  match s with
  | EmptyString => EmptyString
  | String c s' =>
      match rstrip s' with
      | EmptyString => if isspace c then EmptyString else String c EmptyString
      | r => String c r
      end
  end.

(** [s.strip()] *)
Definition strip (s : string) : string := rstrip (lstrip s).

Fixpoint drop (n : nat) (s : string) : string :=
  match n, s with
  | O, _ => s
  | S _, EmptyString => EmptyString
  | S n', String _ s' => drop n' s'
  end.

Fixpoint take (n : nat) (s : string) : string :=
  match n, s with
  | O, _ => EmptyString
  | S _, EmptyString => EmptyString
  | S n', String c s' => String c (take n' s')
  end.

(** [s.replace(old, new)] for a non-empty [old]: the occurrences are taken
    from left to right and do not overlap.  [skip] counts the characters
    of a matched occurrence still to be passed over. *)
Fixpoint replace_from (old new s : string) (skip : nat) : string :=
  match s with
  | EmptyString => EmptyString
  | String c s' =>
      match skip with
      | S k => replace_from old new s' k
      | O =>
          if String.prefix old s
          then new ++ replace_from old new s' (String.length old - 1)
          else String c (replace_from old new s' 0)
      end
  end.

Definition replace (s old new : string) : string := replace_from old new s 0.

(** [s.count(c)] for a one-character pattern. *)
Fixpoint count (s : string) (c : ascii) : Z :=
  match s with
  | EmptyString => 0
  | String a s' => (if Ascii.eqb a c then 1 else 0) + count s' c
  end.

(** [s.find(c)] for a one-character pattern, counting from [i]. *)
Fixpoint find_from (s : string) (c : ascii) (i : Z) : Z :=
  match s with
  | EmptyString => -1
  | String a s' => if Ascii.eqb a c then i else find_from s' c (i + 1)
  end.

Definition find (s : string) (c : ascii) : Z := find_from s c 0.

(** [s.rfind(c)]: the last position of [c], or [-1]. *)
Fixpoint rfind_from (s : string) (c : ascii) (i : Z) : Z :=
  match s with
  | EmptyString => -1
  | String a s' =>
      let r := rfind_from s' c (i + 1) in
      if 0 <=? r then r else if Ascii.eqb a c then i else -1
  end.

Definition rfind (s : string) (c : ascii) : Z := rfind_from s c 0.

(** Python's clamping of a slice bound: a negative bound counts from the
    end, and the result is brought into [0 .. len s]. *)
Definition clamp (s : string) (i : Z) : Z :=
  let i' := if i <? 0 then i + len s else i in
  Z.max 0 (Z.min i' (len s)).

(** [s[start:stop]] *)
Definition slice (s : string) (start stop : Z) : string :=
  let a := clamp s start in
  let b := clamp s stop in
  take (Z.to_nat (b - a)) (drop (Z.to_nat a) s).

(** [s[start:]] and [s[:stop]] *)
Definition slice_from (s : string) (start : Z) : string :=
  drop (Z.to_nat (clamp s start)) s.
Definition slice_to (s : string) (stop : Z) : string :=
  take (Z.to_nat (clamp s stop)) s.

(** [sep.join(parts)] *)
Fixpoint join (sep : string) (parts : list string) : string :=
  match parts with
  | [] => EmptyString
  | [p] => p
  | p :: rest => p ++ sep ++ join sep rest
  end.

(** [c * n] for a one-character string [c]; empty when [n <= 0]. *)
Definition repeat (c : ascii) (n : Z) : string :=
  string_of_list_ascii (List.repeat c (Z.to_nat n)).

(** Text with single quotes standing for double quotes, so that the
    literals of the source can be written down as they are. *)
Fixpoint dq (s : string) : string :=
  match s with
  | EmptyString => EmptyString
  | String c s' => String (if Ascii.eqb c (chr 39) then DQUOTE else c) (dq s')
  end.

End PyStr.

Import PyStr.

(** ** Python values and exceptions *)

(** What [json.loads] can return. A [dict] is the list of its items, in
    insertion order, with distinct keys. *)
Inductive json : Type :=
| JNull
| JBool (b : bool)
| JNum (q : Q)
| JStr (s : string)
| JList (items : list json)
| JDict (items : list (string * json)).

(** The exceptions the service can meet; all of them derive from
    [Exception], so [except Exception] catches each one. *)
Inductive exn : Type :=
| JSONDecodeError
| AttributeError
| TypeError
| IndexError
| ValidationError
| APIError.

Inductive result (A : Type) : Type :=
| Return (a : A)
| Raise (e : exn).

Arguments Return {A} a.
Arguments Raise {A} e.

Definition bind {A B : Type} (r : result A) (k : A -> result B) : result B :=
  match r with
  | Return a => k a
  | Raise e => Raise e
  end.

Notation "x <- r ;; k" := (bind r (fun x => k))
  (at level 61, r at next level, right associativity).

Definition raises {A : Type} (r : result A) : bool :=
  match r with
  | Return _ => false
  | Raise _ => true
  end.

(** [d.get(key)] on the items of a dict. *)
Fixpoint dict_lookup (d : list (string * json)) (key : string) : option json :=
  match d with
  | [] => None
  | (k, v) :: d' => if String.eqb k key then Some v else dict_lookup d' key
  end.

(** [d.get(key, default)] *)
Definition dict_get (d : list (string * json)) (key : string) (default : json) : json :=
  match dict_lookup d key with
  | Some v => v
  | None => default
  end.

(** [key in d] *)
Definition dict_has (d : list (string * json)) (key : string) : bool :=
  match dict_lookup d key with
  | Some _ => true
  | None => false
  end.

(** Truth value of an object, as [not x] and [if x] test it. *)
Definition truthy (v : json) : bool :=
  match v with
  | JNull => false
  | JBool b => b
  | JNum q => negb (Z.eqb (Qnum q) 0)
  | JStr s => negb (String.eqb s EmptyString)
  | JList l => match l with [] => false | _ => true end
  | JDict d => match d with [] => false | _ => true end
  end.

(** [for x in v]: the elements a [for] loop visits, or [TypeError] when the
    object is not iterable.  A str yields its characters, a dict its keys. *)
Definition py_iter (v : json) : result (list json) :=
  match v with
  | JList l => Return l
  | JStr s => Return (map (fun c => JStr (String c EmptyString)) (list_ascii_of_string s))
  | JDict d => Return (map (fun kv => JStr (fst kv)) d)
  | JNull | JBool _ | JNum _ => Raise TypeError
  end.

(** [v.get]: only a dict has the method; on anything else the attribute
    lookup fails. *)
Definition as_dict (v : json) : result (list (string * json)) :=
  match v with
  | JDict d => Return d
  | _ => Raise AttributeError
  end.

(** ** Request and response models *)

(** Modelled from the spec: the class [UserPreferences] of
    [app.models.request_models] is not part of the sources at hand; its
    four optional fields are those of section 3 of the specification. *)
Record UserPreferences : Type := {
  mood : option string;
  pace : option string;
  genre_preferences : option (list string);
  genre_blocklist : option (list string)
}.

(** Modelled from the spec: the classes [BookRecommendation],
    [TasteProfile] and [RecommendationResponse] of
    [app.models.response_models] are not part of the sources at hand; the
    fields and their types are those of section 3 of the specification,
    with the match score and the appeal optional. *)
Record BookRecommendation : Type := {
  title : string;
  author : string;
  reason : string;
  taste_match_score : option Q;
  primary_appeal : option string
}.

Record TasteProfile : Type := {
  themes : list string;
  narrative_style : string;
  emotional_tone : string;
  genre_fusion : string;
  character_preferences : string;
  artistic_sensibilities : string;
  confidence_score : Q
}.

Record RecommendationResponse : Type := {
  movie : string;
  books : list BookRecommendation;
  taste_profile : TasteProfile
}.

(** The fields of a taste profile. *)
Inductive ProfileField : Type :=
| Themes
| NarrativeStyle
| EmotionalTone
| GenreFusion
| CharacterPreferences
| ArtisticSensibilities
| ConfidenceScore.

(** Field validation of the models: a value of the declared type is taken
    as it is, anything else is a [ValidationError]. *)
Definition as_str (v : json) : result string :=
  match v with
  | JStr s => Return s
  | _ => Raise ValidationError
  end.

Definition as_float (v : json) : result Q :=
  match v with
  | JNum q => Return q
  | _ => Raise ValidationError
  end.

Definition as_optional {A : Type} (f : json -> result A) (v : json) : result (option A) :=
  match v with
  | JNull => Return None
  | _ => a <- f v ;; Return (Some a)
  end.

Fixpoint as_str_list_items (l : list json) : result (list string) :=
  match l with
  | [] => Return []
  | v :: l' => s <- as_str v ;; r <- as_str_list_items l' ;; Return (s :: r)
  end.

Definition as_str_list (v : json) : result (list string) :=
  match v with
  | JList l => as_str_list_items l
  | _ => Raise ValidationError
  end.

(** [BookRecommendation(title=.., author=.., reason=.., taste_match_score=..,
    primary_appeal=..)] on Python values. *)
Definition BookRecommendation_init (t a r m p : json) : result BookRecommendation :=
  t' <- as_str t ;;
  a' <- as_str a ;;
  r' <- as_str r ;;
  m' <- as_optional as_float m ;;
  p' <- as_optional as_str p ;;
  Return {| title := t'; author := a'; reason := r';
            taste_match_score := m'; primary_appeal := p' |}.

(** [TasteProfile(themes=.., ..., confidence_score=..)] on Python values. *)
Definition TasteProfile_init (th ns et gf cp ar cs : json) : result TasteProfile :=
  th' <- as_str_list th ;;
  ns' <- as_str ns ;;
  et' <- as_str et ;;
  gf' <- as_str gf ;;
  cp' <- as_str cp ;;
  ar' <- as_str ar ;;
  cs' <- as_float cs ;;
  Return {| themes := th'; narrative_style := ns'; emotional_tone := et';
            genre_fusion := gf'; character_preferences := cp';
            artistic_sensibilities := ar'; confidence_score := cs' |}.

(** ** The service *)

(** The part of [app.config.settings] the service reads.
    [books_per_recommendation] may be missing from the settings object. *)
Record Settings : Type := {
  gpt_model : string;
  books_per_recommendation : option Z
}.

(** One chat-completion request, and what comes back from
    [response.choices[0].message.content]: the call or the access fails
    with an exception deriving from [Exception], or the content is a str or
    [None]. *)
Record ChatRequest : Type := {
  req_model : string;
  req_system : string;
  req_user : string;
  req_max_tokens : Z;
  req_temperature : Q
}.

Inductive Completion : Type :=
| Failed (e : exn)
| Content (c : option string).

(** [str(n)] for an int. *)
Definition str_of_int (n : Z) : string := NilZero.string_of_int (Z.to_int n).

Definition NL : string := String LF EmptyString.

(** [l.append(x)] *)
Definition append1 {A : Type} (l : list A) (x : A) : list A := (l ++ [x])%list.

Module GPTService.
Section Service.

Variable settings : Settings.
(** [json.loads]: the decoded value, or [None] for a [JSONDecodeError]. *)
Variable json_loads : string -> option json.
(** [self.client.chat.completions.create] followed by the access to the
    content of the first choice. *)
Variable client : ChatRequest -> Completion.

Definition _get_system_prompt : string :=
"You are a literary taste analyst. Your task is to analyze movie preferences and recommend books.

CRITICAL: You must respond with ONLY valid JSON. No explanations, no markdown, no extra text.

ANALYSIS PRINCIPLES:
- Identify themes, tone, and narrative style across movies
- Extract emotional and artistic preferences
- Find deeper aesthetic connections

SCORING:
- confidence_score: 0.7-1.0 based on pattern clarity
- taste_match_score: 0.7-1.0 based on thematic alignment

RESPONSE FORMAT: Valid JSON only, exactly matching the required structure.".

Definition _get_json_schema : string := dq
"{
  'taste_profile': {
    'themes': ['theme1', 'theme2', 'theme3'],
    'narrative_style': 'concise description of storytelling preferences',
    'emotional_tone': 'preferred emotional register',
    'genre_fusion': 'genre preferences and blending patterns',
    'character_preferences': 'preferred character archetypes and development',
    'artistic_sensibilities': 'aesthetic and stylistic preferences',
    'confidence_score': 0.85
  },
  'unified_recommendations': [
    {
      'title': 'Book Title',
      'author': 'Author Name', 
      'reason': '75+ word explanation connecting to unified taste profile',
      'taste_match_score': 0.95,
      'primary_appeal': 'core aspect of taste this book satisfies'
    }
  ]
}".

(** [if x:] on an optional str and on an optional list. *)
Definition str_set (o : option string) : bool :=
  match o with
  | Some s => negb (String.eqb s EmptyString)
  | None => false
  end.

Definition list_set (o : option (list string)) : bool :=
  match o with
  | Some (_ :: _) => true
  | _ => false
  end.

Definition str_val (o : option string) : string :=
  match o with Some s => s | None => EmptyString end.

Definition list_val (o : option (list string)) : list string :=
  match o with Some l => l | None => [] end.

(** The four guarded [constraint_list.append] statements, in program
    order. *)
Definition constraint_list (p : UserPreferences) : list string :=
  let l0 : list string := [] in
  let l1 := if str_set (mood p)
            then append1 l0 ("Mood alignment: " ++ str_val (mood p)) else l0 in
  let l2 := if str_set (pace p)
            then append1 l1 ("Pacing: " ++ str_val (pace p)) else l1 in
  let l3 := if list_set (genre_preferences p)
            then append1 l2 ("Favor: " ++ join ", " (list_val (genre_preferences p))) else l2 in
  let l4 := if list_set (genre_blocklist p)
            then append1 l3 ("Avoid: " ++ join ", " (list_val (genre_blocklist p))) else l3 in
  l4.

(** What [_build_unified_prompt] appends for the preferences: nothing
    when there are none or when no field is set.  A preferences object is
    itself true for [if preferences:]. *)
Definition constraints_block (preferences : option UserPreferences) : string :=
  match preferences with
  | Some p =>
      match constraint_list p with
      | [] => EmptyString
      | l => NL ++ NL ++ "CONSTRAINTS:" ++ NL ++ "• " ++ join (NL ++ "• ") l
      end
  | None => EmptyString
  end.

Definition analysis_instruction (movies : list string) : string :=
  match movies with
  | [m] => "Analyze " ++ m ++ " to extract the viewer's aesthetic preferences:"
  | _ => "Find the unified taste pattern across: " ++ join ", " movies
  end.

Definition books_count : Z :=
  match books_per_recommendation settings with
  | Some n => n
  | None => 3
  end.

Definition _build_unified_prompt (movies : list string)
    (preferences : option UserPreferences) : string :=
  let prompt := analysis_instruction movies ++ "

STEP 1 - TASTE ANALYSIS:
Extract the aesthetic DNA by identifying:
• Recurring themes and emotional territories
• Narrative complexity preferences (linear/non-linear, character vs. plot-driven)
• Tonal signatures (dark/light, realistic/fantastical, introspective/action-oriented)
• Character archetype preferences and relationship dynamics
• Visual/atmospheric sensibilities that translate to literary mood

STEP 2 - BOOK RECOMMENDATIONS:
Select " ++ str_of_int books_count ++ " books that share this aesthetic DNA. Prioritize:
• Thematic resonance over genre matching
• Narrative sophistication level alignment
• Emotional and tonal consistency
• Character depth matching viewer preferences" in
  let prompt := prompt ++ constraints_block preferences in
  prompt ++ "

CRITICAL: Respond with ONLY the JSON below. No explanations, no markdown, no extra text:

" ++ _get_json_schema.

(** [movies[-1]]: an [IndexError] on the empty list. *)
Definition last_item (movies : list string) : result string :=
  match movies with
  | [] => Raise IndexError
  | m :: rest => Return (List.last rest m)
  end.

(** [movies[:-1]] *)
Definition all_but_last (movies : list string) : list string :=
  List.removelast movies.

(** [_create_movie_summary(movies, taste_profile)]; the second argument
    is the dict the caller passes, which the body never reads. *)
Definition _create_movie_summary (movies : list string) (taste_profile : json)
    : result string :=
  match movies with
  | [m0] => Return ("Based on your interest in " ++ m0)
  | [m0; m1] => Return ("Based on your taste for " ++ m0 ++ " and " ++ m1)
  | _ =>
      let joined := join ", " (all_but_last movies) in
      l <- last_item movies ;;
      Return ("Based on your taste profile from " ++ joined ++ ", and " ++ l)
  end.

Definition fallback_books : list BookRecommendation :=
  [ {| title := "The Seven Husbands of Evelyn Hugo";
       author := "Taylor Jenkins Reid";
       reason := "A compelling narrative that combines character depth with emotional complexity, appealing to viewers who appreciate sophisticated storytelling.";
       taste_match_score := Some (8 # 10)%Q;
       primary_appeal := Some "Character-driven storytelling" |};
    {| title := "Klara and the Sun";
       author := "Kazuo Ishiguro";
       reason := "Masterful blend of speculative elements with profound human themes, perfect for those who enjoy thoughtful, emotionally resonant narratives.";
       taste_match_score := Some (85 # 100)%Q;
       primary_appeal := Some "Thoughtful speculative fiction" |};
    {| title := "The Midnight Library";
       author := "Matt Haig";
       reason := "Philosophical exploration of life choices and possibilities, combining accessibility with deeper existential themes.";
       taste_match_score := Some (75 # 100)%Q;
       primary_appeal := Some "Philosophical exploration" |} ].

Definition fallback_taste_profile : TasteProfile :=
  {| themes := ["character development"; "emotional depth"; "existential themes"];
     narrative_style := "Layered, character-driven storytelling";
     emotional_tone := "Thoughtful and introspective";
     genre_fusion := "Literary fiction with speculative elements";
     character_preferences := "Complex, well-developed characters";
     artistic_sensibilities := "Appreciation for literary craftsmanship";
     confidence_score := (6 # 10)%Q |}.

(** [_create_fallback_response(movies)] *)
Definition _create_fallback_response (movies : list string)
    : result (list RecommendationResponse) :=
  movie_summary <- _create_movie_summary movies (JDict []) ;;
  Return [ {| movie := movie_summary;
              books := fallback_books;
              taste_profile := fallback_taste_profile |} ].

(** The brace-counting loop over [enumerate(content[json_start:],
    json_start)]: [s] is what is left to visit, [i] the index of its first
    character; the result is [json_end] when the loop ends or breaks. *)
Fixpoint scan_braces (s : string) (i brace_count json_end : Z) : Z :=
  match s with
  | EmptyString => json_end
  | String char s' =>
      if Ascii.eqb char LBRACE then
        scan_braces s' (i + 1) (brace_count + 1) json_end
      else if Ascii.eqb char RBRACE then
        let brace_count := brace_count - 1 in
        if brace_count =? 0 then i + 1
        else scan_braces s' (i + 1) brace_count json_end
      else scan_braces s' (i + 1) brace_count json_end
  end.

(** The markdown clean-up at the head of [_parse_unified_response]. *)
Definition clean_content (content : string) : string :=
  let content := strip content in
  let content := replace (replace content "```json" EmptyString) "```" EmptyString in
  let content := replace content "**STEP 1 - TASTE ANALYSIS:**" EmptyString in
  let content := replace content "**STEP 2 - BOOK RECOMMENDATIONS:**" EmptyString in
  content.

(** The repairs applied to the extracted object before decoding. *)
Definition repair_json (json_str : string) : string :=
  let json_str := replace (replace json_str NL " ") (String CR EmptyString) EmptyString in
  if negb (count json_str DQUOTE mod 2 =? 0) then
    let last_quote := rfind json_str DQUOTE in
    let json_str := slice_to json_str last_quote in
    let open_braces := count json_str LBRACE - count json_str RBRACE in
    json_str ++ PyStr.repeat RBRACE open_braces
  else json_str.

Definition loads (json_str : string) : result json :=
  match json_loads json_str with
  | Some v => Return v
  | None => Raise JSONDecodeError
  end.

(** The body of the loop over the recommended books: [unified_books] is
    the list built so far. *)
Fixpoint collect_books (entries : list json) (unified_books : list BookRecommendation)
    : result (list BookRecommendation) :=
  match entries with
  | [] => Return unified_books
  | book_data :: rest =>
      d <- as_dict book_data ;;
      if negb (truthy (dict_get d "title" JNull))
         || negb (truthy (dict_get d "author" JNull))
      then collect_books rest unified_books
      else
        book <- BookRecommendation_init
                  (dict_get d "title" JNull)
                  (dict_get d "author" JNull)
                  (dict_get d "reason" (JStr EmptyString))
                  (dict_get d "taste_match_score" JNull)
                  (dict_get d "primary_appeal" JNull) ;;
        collect_books rest (append1 unified_books book)
  end.

(** The seven keyword arguments of the [TasteProfile(...)] call: each is
    [taste_profile_data.get(key, default)] with the key and the default
    of its line. *)
Definition field_key (f : ProfileField) : string :=
  match f with
  | Themes => "themes"
  | NarrativeStyle => "narrative_style"
  | EmotionalTone => "emotional_tone"
  | GenreFusion => "genre_fusion"
  | CharacterPreferences => "character_preferences"
  | ArtisticSensibilities => "artistic_sensibilities"
  | ConfidenceScore => "confidence_score"
  end.

Definition field_default (f : ProfileField) : json :=
  match f with
  | Themes => JList []
  | NarrativeStyle => JStr EmptyString
  | EmotionalTone => JStr EmptyString
  | GenreFusion => JStr EmptyString
  | CharacterPreferences => JStr EmptyString
  | ArtisticSensibilities => JStr EmptyString
  | ConfidenceScore => JNum (7 # 10)
  end.

Definition field_arg (taste_profile_data : list (string * json)) (f : ProfileField)
    : json :=
  dict_get taste_profile_data (field_key f) (field_default f).

Definition build_taste_profile (taste_profile_data : list (string * json))
    : result TasteProfile :=
  TasteProfile_init
    (field_arg taste_profile_data Themes)
    (field_arg taste_profile_data NarrativeStyle)
    (field_arg taste_profile_data EmotionalTone)
    (field_arg taste_profile_data GenreFusion)
    (field_arg taste_profile_data CharacterPreferences)
    (field_arg taste_profile_data ArtisticSensibilities)
    (field_arg taste_profile_data ConfidenceScore).

(** ['unified_recommendations' not in data] answers for a dict, a list
    and a str; on the other values the test itself fails. *)
Definition contains (data : json) (key : string) : result bool :=
  match data with
  | JDict d => Return (dict_has d key)
  | JList l =>
      Return (existsb (fun v => match v with
                                | JStr s => String.eqb s key
                                | _ => false
                                end) l)
  | JStr s =>
      Return (match String.index 0 key s with Some _ => true | None => false end)
  | JNull | JBool _ | JNum _ => Raise TypeError
  end.

(** The first half of the [try] block of [_parse_unified_response]: from
    the reply to the decoded [data].  [None] stands for the two early
    returns of the fallback (no opening brace, no complete object). *)
Definition extract_data (content : string) : result (option json) :=
  let content := clean_content content in
  let json_start := find content LBRACE in
  if negb (json_start =? -1) then
    let json_end :=
      scan_braces (slice_from content json_start) json_start 0 json_start in
    if json_end >? json_start then
      let json_str := slice content json_start json_end in
      data <- loads (repair_json json_str) ;;
      Return (Some data)
    else Return None
  else Return None.

(** The second half: from [data] to the response. *)
Definition build_response (data : json) (movies : list string)
    : result (list RecommendationResponse) :=
  has <- contains data "unified_recommendations" ;;
  if negb has then _create_fallback_response movies
  else
    d <- as_dict data ;;
    entries <- py_iter (dict_get d "unified_recommendations" (JList [])) ;;
    unified_books <- collect_books entries [] ;;
    match unified_books with
    | [] => _create_fallback_response movies
    | _ =>
        taste_profile_data <- as_dict (dict_get d "taste_profile" (JDict [])) ;;
        taste_profile <- build_taste_profile taste_profile_data ;;
        movie_summary <- _create_movie_summary movies (JDict taste_profile_data) ;;
        Return [ {| movie := movie_summary;
                    books := unified_books;
                    taste_profile := taste_profile |} ]
    end.

(** The [try] block of [_parse_unified_response]; a [None] content has no
    [strip]. *)
Definition parse_body (content : option string) (movies : list string)
    : result (list RecommendationResponse) :=
  match content with
  | None => Raise AttributeError
  | Some content =>
      extracted <- extract_data content ;;
      match extracted with
      | Some data => build_response data movies
      | None => _create_fallback_response movies
      end
  end.

(** [_parse_unified_response(content, movies)]: both handlers answer
    with the fallback. *)
Definition _parse_unified_response (content : option string) (movies : list string)
    : result (list RecommendationResponse) :=
  match parse_body content movies with
  | Return r => Return r
  | Raise JSONDecodeError => _create_fallback_response movies
  | Raise _ => _create_fallback_response movies
  end.

Definition generation_request (prompt : string) : ChatRequest :=
  {| req_model := gpt_model settings;
     req_system := _get_system_prompt;
     req_user := prompt;
     req_max_tokens := 2000;
     req_temperature := (3 # 10)%Q |}.

(** [generate_recommendations(movies, preferences)] *)
Definition generate_recommendations (movies : list string)
    (preferences : option UserPreferences) : result (list RecommendationResponse) :=
  let prompt := _build_unified_prompt movies preferences in
  let attempt :=
    match client (generation_request prompt) with
    | Failed e => Raise e
    | Content content => _parse_unified_response content movies
    end in
  match attempt with
  | Return r => Return r
  | Raise _ => _create_fallback_response movies
  end.

Definition analysis_prompt (movies : list string) : string :=
  let movies_str := join ", " movies in
  "Extract the unified aesthetic profile from: " ++ movies_str ++ dq "

ANALYSIS FRAMEWORK:
• Thematic territories: Core emotional/philosophical themes
• Narrative DNA: Structural and storytelling preferences  
• Tonal signature: Emotional register and atmospheric preferences
• Character archetypes: Relationship dynamics and development patterns
• Artistic sensibilities: Visual/stylistic elements that translate to literary mood

SCORING: Rate confidence (0.5-1.0) based on pattern clarity across films.

RESPONSE FORMAT:
{
  'themes': ['specific thematic elements'],
  'narrative_style': 'storytelling approach preferences',
  'emotional_tone': 'tonal and atmospheric preferences', 
  'genre_fusion': 'genre blending and boundary preferences',
  'character_preferences': 'character type and development preferences',
  'artistic_sensibilities': 'aesthetic and stylistic preferences',
  'confidence_score': 0.85
}".

Definition analysis_request (prompt : string) : ChatRequest :=
  {| req_model := gpt_model settings;
     req_system := "You are an expert in cross-media aesthetic analysis. Extract unified patterns from film preferences. Always respond with valid JSON only.";
     req_user := prompt;
     req_max_tokens := 600;
     req_temperature := (6 # 10)%Q |}.

(** The dict literal of the handler of [analyze_taste_profile]. *)
Definition analysis_fallback : json :=
  JDict [ ("themes", JList [JStr "character-driven narratives"; JStr "emotional complexity"]);
          ("narrative_style", JStr "Layered, sophisticated storytelling");
          ("emotional_tone", JStr "Thoughtful and emotionally resonant");
          ("genre_fusion", JStr "Cross-genre sensibilities");
          ("character_preferences", JStr "Complex, well-developed characters");
          ("artistic_sensibilities", JStr "Appreciation for narrative craftsmanship");
          ("confidence_score", JNum (5 # 10)) ].

(** The [try] block of [analyze_taste_profile]. *)
Definition analyze_body (movies : list string) : result json :=
  match client (analysis_request (analysis_prompt movies)) with
  | Failed e => Raise e
  | Content None => Raise AttributeError
  | Content (Some content) =>
      let json_start := find content LBRACE in
      let json_end := rfind content RBRACE + 1 in
      let json_str := slice content json_start json_end in
      loads json_str
  end.

(** [analyze_taste_profile(movies, preferences)] *)
Definition analyze_taste_profile (movies : list string)
    (preferences : option UserPreferences) : result json :=
  match analyze_body movies with
  | Return v => Return v
  | Raise _ => Return analysis_fallback
  end.

End Service.
End GPTService.

(** ** A decoder for running the service on concrete replies

    [json.loads] is a parameter of the service, and the theorems below hold
    for every decoder.  The examples need one to run: [JsonSubset.loads]
    decodes objects, arrays, strings with the one-letter escapes, decimal
    numbers without exponent, [true], [false] and [null], and rejects
    everything else (where Python would accept an exponent or a [\u]
    escape, this decoder answers [None]). *)

Module JsonSubset.

Definition is_ws (c : ascii) : bool :=
  let n := nat_of_ascii c in
  ((n =? 32) || (n =? 9) || (n =? 10) || (n =? 13))%nat.

Fixpoint skip_ws (s : string) : string :=
  match s with
  | String c s' => if is_ws c then skip_ws s' else s
  | EmptyString => EmptyString
  end.

Definition digit (c : ascii) : option Z :=
  let n := nat_of_ascii c in
  if ((48 <=? n) && (n <=? 57))%nat then Some (Z.of_nat n - 48) else None.

(** The digits at the head of [s]: their value, their number, the rest. *)
Fixpoint digits (s : string) (acc : Z) (k : nat) : Z * nat * string :=
  match s with
  | String c s' =>
      match digit c with
      | Some d => digits s' (10 * acc + d) (S k)
      | None => (acc, k, s)
      end
  | EmptyString => (acc, k, s)
  end.

Definition is_exp (s : string) : bool :=
  match s with
  | String c _ => Ascii.eqb c (chr 101) || Ascii.eqb c (chr 69)
  | EmptyString => false
  end.

Definition leading_zero (s : string) : bool :=
  match s with
  | String c (String c' _) =>
      Ascii.eqb c (chr 48) && match digit c' with Some _ => true | None => false end
  | _ => false
  end.

Definition number (s : string) : option (Q * string) :=
  let '(neg, s1) :=
    match s with
    | String c s' => if Ascii.eqb c (chr 45) then (true, s') else (false, s)
    | EmptyString => (false, s)
    end in
  let '(n, k, s2) := digits s1 0 0 in
  if (k =? 0)%nat || leading_zero s1 then None
  else
    let '(num, den, s3) :=
      match s2 with
      | String c s' =>
          if Ascii.eqb c (chr 46) then
            let '(f, j, r) := digits s' 0 0 in
            if (j =? 0)%nat then (0, 0%nat, s2)
            else (n * 10 ^ Z.of_nat j + f, j, r)
          else (n, 0%nat, s2)
      | EmptyString => (n, 0%nat, s2)
      end in
    match s2, s3 with
    | String c _, String c' _ =>
        if Ascii.eqb c (chr 46) && Ascii.eqb c' (chr 46) then None
        else if is_exp s3 then None
        else Some (Qmake (if neg then - num else num) (Pos.of_nat (10 ^ den)), s3)
    | _, _ => Some (Qmake (if neg then - num else num) (Pos.of_nat (10 ^ den)), s3)
    end.

Definition unescape (c : ascii) : option ascii :=
  let n := nat_of_ascii c in
  if (n =? 34)%nat || (n =? 92)%nat || (n =? 47)%nat then Some c
  else if (n =? 110)%nat then Some (chr 10)
  else if (n =? 116)%nat then Some (chr 9)
  else if (n =? 114)%nat then Some (chr 13)
  else if (n =? 98)%nat then Some (chr 8)
  else if (n =? 102)%nat then Some (chr 12)
  else None.

(** The body of a string literal, after its opening quote. *)
Fixpoint str_body (s : string) : option (string * string) :=
  match s with
  | EmptyString => None
  | String c s' =>
      if Ascii.eqb c DQUOTE then Some (EmptyString, s')
      else if Ascii.eqb c (chr 92) then
        match s' with
        | String e s'' =>
            match unescape e, str_body s'' with
            | Some c', Some (b, r) => Some (String c' b, r)
            | _, _ => None
            end
        | EmptyString => None
        end
      else if (nat_of_ascii c <? 32)%nat then None
      else
        match str_body s' with
        | Some (b, r) => Some (String c b, r)
        | None => None
        end
  end.

(** [d[k] = v] on the items of a dict. *)
Fixpoint dict_set (d : list (string * json)) (k : string) (v : json)
    : list (string * json) :=
  match d with
  | [] => [(k, v)]
  | (k', v') :: d' =>
      if String.eqb k' k then (k', v) :: d' else (k', v') :: dict_set d' k v
  end.

Definition head_is (s : string) (c : ascii) : option string :=
  match s with
  | String a s' => if Ascii.eqb a c then Some s' else None
  | EmptyString => None
  end.

Fixpoint value (fuel : nat) (s : string) {struct fuel} : option (json * string) :=
  match fuel with
  | O => None
  | S f =>
      match skip_ws s with
      | EmptyString => None
      | String c r as s0 =>
          if Ascii.eqb c LBRACE then
            match head_is (skip_ws r) RBRACE with
            | Some r' => Some (JDict [], r')
            | None => members f r []
            end
          else if Ascii.eqb c (chr 91) then
            match head_is (skip_ws r) (chr 93) with
            | Some r' => Some (JList [], r')
            | None => elements f r []
            end
          else if Ascii.eqb c DQUOTE then
            match str_body r with
            | Some (b, r') => Some (JStr b, r')
            | None => None
            end
          else if String.prefix "true" s0 then Some (JBool true, drop 4 s0)
          else if String.prefix "false" s0 then Some (JBool false, drop 5 s0)
          else if String.prefix "null" s0 then Some (JNull, drop 4 s0)
          else
            match number s0 with
            | Some (q, r') => Some (JNum q, r')
            | None => None
            end
      end
  end
with elements (fuel : nat) (s : string) (acc : list json) {struct fuel}
    : option (json * string) :=
  match fuel with
  | O => None
  | S f =>
      match value f s with
      | Some (v, r) =>
          let r := skip_ws r in
          match head_is r (chr 44), head_is r (chr 93) with
          | Some r', _ => elements f r' (append1 acc v)
          | None, Some r' => Some (JList (append1 acc v), r')
          | None, None => None
          end
      | None => None
      end
  end
with members (fuel : nat) (s : string) (acc : list (string * json)) {struct fuel}
    : option (json * string) :=
  match fuel with
  | O => None
  | S f =>
      match head_is (skip_ws s) DQUOTE with
      | Some r =>
          match str_body r with
          | Some (k, r) =>
              match head_is (skip_ws r) (chr 58) with
              | Some r =>
                  match value f r with
                  | Some (v, r) =>
                      let r := skip_ws r in
                      match head_is r (chr 44), head_is r RBRACE with
                      | Some r', _ => members f r' (dict_set acc k v)
                      | None, Some r' => Some (JDict (dict_set acc k v), r')
                      | None, None => None
                      end
                  | None => None
                  end
              | None => None
              end
          | None => None
          end
      | None => None
      end
  end.

Definition loads (s : string) : option json :=
  match value (S (String.length s)) s with
  | Some (v, r) =>
      match skip_ws r with
      | EmptyString => Some v
      | _ => None
      end
  | None => None
  end.

End JsonSubset.

(** ** Notions the properties are stated with *)

(** The text from its first opening brace on; empty when there is none. *)
Fixpoint from_first_brace (s : string) : string :=
  match s with
  | EmptyString => EmptyString
  | String c s' => if Ascii.eqb c LBRACE then s else from_first_brace s'
  end.

(** Reading [s] at brace depth [depth]: does the depth come back to zero at
    some closing brace? *)
Fixpoint returns_to_zero (s : string) (depth : Z) : bool :=
  match s with
  | EmptyString => false
  | String c s' =>
      if Ascii.eqb c LBRACE then returns_to_zero s' (depth + 1)
      else if Ascii.eqb c RBRACE then
        (depth - 1 =? 0) || returns_to_zero s' (depth - 1)
      else returns_to_zero s' depth
  end.

(** The braces of a text, in order. *)
Fixpoint braces (s : string) : string :=
  match s with
  | EmptyString => EmptyString
  | String c s' =>
      if Ascii.eqb c LBRACE || Ascii.eqb c RBRACE then String c (braces s')
      else braces s'
  end.

(** An entry of the recommendation array that is an object without a
    title or without an author. *)
Definition lacks_title_or_author (entry : json) : bool :=
  match entry with
  | JDict d => negb (dict_has d "title") || negb (dict_has d "author")
  | _ => false
  end.

(** The profile built when every field is missing. *)
Definition default_taste_profile : TasteProfile :=
  {| themes := [];
     narrative_style := EmptyString;
     emotional_tone := EmptyString;
     genre_fusion := EmptyString;
     character_preferences := EmptyString;
     artistic_sensibilities := EmptyString;
     confidence_score := (7 # 10)%Q |}.

(** Preferences with the mood alone. *)
Definition only_mood (m : string) : UserPreferences :=
  {| mood := Some m; pace := None; genre_preferences := None; genre_blocklist := None |}.

(** Preferences with the four fields set. *)
Definition all_four_set : UserPreferences :=
  {| mood := Some "dark"; pace := Some "slow";
     genre_preferences := Some ["noir"; "sci-fi"];
     genre_blocklist := Some ["romance"] |}.

(** Settings and a client for running the service on a given reply. *)
Definition demo_settings : Settings :=
  {| gpt_model := "gpt-4o-mini"; books_per_recommendation := None |}.

Definition replying (c : Completion) : ChatRequest -> Completion := fun _ => c.


(** A reply cut in the middle of the reason of its first book. *)
Definition truncated_reply : string :=
  dq "{'unified_recommendations': [{'title': 'Dune', 'author': 'Frank Herbert', 'reason': 'a great book".

(** What the caller of the generator can rely on: one response, with the
    summary of the movie list, at least one book, and a taste profile that
    is either the canned one or was accepted field by field by the
    [TasteProfile] model. *)
Definition usable_result (movies : list string)
    (out : result (list RecommendationResponse)) : Prop :=
  exists r,
    out = Return [r] /\
    GPTService._create_movie_summary movies (JDict []) = Return (movie r) /\
    books r <> [] /\
    (taste_profile r = GPTService.fallback_taste_profile \/
     exists d, GPTService.build_taste_profile d = Return (taste_profile r)).

(** The bullet lines of the constraints block as the specification lists
    them: one line per field that is set, in the order mood, pace, favored
    genres, avoided genres. *)
Definition bullet_if (present : bool) (line : string) : list string :=
  if present then [line] else [].

Definition bullets_in_order (p : UserPreferences) : list string :=
  (bullet_if (GPTService.str_set (mood p))
     ("Mood alignment: " ++ GPTService.str_val (mood p)) ++
   bullet_if (GPTService.str_set (pace p))
     ("Pacing: " ++ GPTService.str_val (pace p)) ++
   bullet_if (GPTService.list_set (genre_preferences p))
     ("Favor: " ++ join ", " (GPTService.list_val (genre_preferences p))) ++
   bullet_if (GPTService.list_set (genre_blocklist p))
     ("Avoid: " ++ join ", " (GPTService.list_val (genre_blocklist p))))%list.

(** No field of the preferences is set. *)
Definition nothing_set (p : UserPreferences) : bool :=
  negb (GPTService.str_set (mood p)) && negb (GPTService.str_set (pace p)) &&
  negb (GPTService.list_set (genre_preferences p)) &&
  negb (GPTService.list_set (genre_blocklist p)).

(** The mood is the one field that is set. *)
Definition only_mood_set (p : UserPreferences) : bool :=
  GPTService.str_set (mood p) && negb (GPTService.str_set (pace p)) &&
  negb (GPTService.list_set (genre_preferences p)) &&
  negb (GPTService.list_set (genre_blocklist p)).

(** A reply whose only recommendation has no author. *)
Definition reply_without_author : string :=
  dq "{'unified_recommendations': [{'title': 'Dune', 'reason': 'a great book'}]}".

(** A reply with one complete recommendation and no taste profile. *)
Definition reply_without_profile : string :=
  dq "{'unified_recommendations': [{'title': 'Dune', 'author': 'Frank Herbert'}]}".
(** The text of [s] up to and including the closing brace at which the
    depth, starting from [depth], first comes back to zero. *)
Fixpoint first_object (s : string) (depth : Z) : option string :=
  match s with
  | EmptyString => None
  | String c s' =>
      if Ascii.eqb c LBRACE then
        option_map (String c) (first_object s' (depth + 1))
      else if Ascii.eqb c RBRACE then
        if depth - 1 =? 0 then Some (String c EmptyString)
        else option_map (String c) (first_object s' (depth - 1))
      else option_map (String c) (first_object s' depth)
  end.

(** Opening braces minus closing braces. *)
Definition brace_depth (s : string) : Z := count s LBRACE - count s RBRACE.

(** Reading [s] from depth [depth], the depth never goes below zero. *)
Fixpoint never_negative (s : string) (depth : Z) : bool :=
  match s with
  | EmptyString => true
  | String c s' =>
      if Ascii.eqb c LBRACE then never_negative s' (depth + 1)
      else if Ascii.eqb c RBRACE then
        (0 <=? depth - 1) && never_negative s' (depth - 1)
      else never_negative s' depth
  end.

(** A book with a title and an author that are not empty. *)
Definition book_named (b : BookRecommendation) : bool :=
  negb (String.eqb (title b) EmptyString) && negb (String.eqb (author b) EmptyString).

Definition is_object (v : json) : bool :=
  match v with
  | JDict _ => true
  | _ => false
  end.

Definition is_list (v : json) : bool :=
  match v with
  | JList _ => true
  | _ => false
  end.

Definition BACKTICK : ascii := chr 96.
Definition ASTERISK : ascii := chr 42.

(** A reply with two complete recommendations around one whose title is
    empty, and the response the parser builds from it for one movie. *)
Definition reply_with_three_entries : string :=
  dq "{'unified_recommendations': [{'title': 'Dune', 'author': 'Frank Herbert'}, {'title': '', 'author': 'Nobody'}, {'title': 'Solaris', 'author': 'Stanislaw Lem', 'reason': 'quiet dread'}]}".

Definition two_books : list BookRecommendation :=
  [ {| title := "Dune"; author := "Frank Herbert"; reason := EmptyString;
       taste_match_score := None; primary_appeal := None |};
    {| title := "Solaris"; author := "Stanislaw Lem"; reason := "quiet dread";
       taste_match_score := None; primary_appeal := None |} ].

Definition two_books_response : RecommendationResponse :=
  {| movie := "Based on your interest in Inception";
     books := two_books;
     taste_profile := default_taste_profile |}.

(** The values Python takes for false in a test. *)
Definition falsy_values : list json :=
  [JNull; JBool false; JNum 0; JStr EmptyString; JList []; JDict []].

(** Replies that decode but are not shaped as the prompt asks. *)
Definition reply_with_string_entry : string :=
  dq "{'unified_recommendations': [{'title': 'Dune', 'author': 'Frank Herbert'}, 'Solaris']}".

Definition reply_with_null_profile : string :=
  dq "{'unified_recommendations': [{'title': 'Dune', 'author': 'Frank Herbert'}], 'taste_profile': null}".

Definition reply_with_books_as_text : string :=
  dq "{'unified_recommendations': 'Dune'}".

Definition reply_undecodable : string :=
  dq "{'unified_recommendations': [}".

(** The object the example schema of the prompt denotes. *)
Definition schema_value : json :=
  JDict
    [ ("taste_profile",
       JDict [ ("themes", JList [JStr "theme1"; JStr "theme2"; JStr "theme3"]);
               ("narrative_style", JStr "concise description of storytelling preferences");
               ("emotional_tone", JStr "preferred emotional register");
               ("genre_fusion", JStr "genre preferences and blending patterns");
               ("character_preferences",
                JStr "preferred character archetypes and development");
               ("artistic_sensibilities", JStr "aesthetic and stylistic preferences");
               ("confidence_score", JNum (85 # 100)) ]);
      ("unified_recommendations",
       JList [ JDict [ ("title", JStr "Book Title");
                       ("author", JStr "Author Name");
                       ("reason",
                        JStr "75+ word explanation connecting to unified taste profile");
                       ("taste_match_score", JNum (95 # 100));
                       ("primary_appeal",
                        JStr "core aspect of taste this book satisfies") ] ]) ].

(** The response the parser builds from it for one movie. *)
Definition schema_response : RecommendationResponse :=
  {| movie := "Based on your interest in Inception";
     books :=
       [ {| title := "Book Title";
            author := "Author Name";
            reason := "75+ word explanation connecting to unified taste profile";
            taste_match_score := Some (95 # 100)%Q;
            primary_appeal := Some "core aspect of taste this book satisfies" |} ];
     taste_profile :=
       {| themes := ["theme1"; "theme2"; "theme3"];
          narrative_style := "concise description of storytelling preferences";
          emotional_tone := "preferred emotional register";
          genre_fusion := "genre preferences and blending patterns";
          character_preferences := "preferred character archetypes and development";
          artistic_sensibilities := "aesthetic and stylistic preferences";
          confidence_score := (85 # 100)%Q |} |}.

(** [m] occurs in [s] as a contiguous piece. *)
Definition occurs_in (m s : string) : Prop := exists a b, s = a ++ m ++ b.

(** A taste profile none of whose descriptive fields is empty. *)
Definition fully_populated (tp : TasteProfile) : bool :=
  match themes tp with [] => false | _ => true end &&
  negb (String.eqb (narrative_style tp) EmptyString) &&
  negb (String.eqb (emotional_tone tp) EmptyString) &&
  negb (String.eqb (genre_fusion tp) EmptyString) &&
  negb (String.eqb (character_preferences tp) EmptyString) &&
  negb (String.eqb (artistic_sensibilities tp) EmptyString).

(** The value of one field of the profile, read from the [taste_profile]
    object of the reply: what is stored under the key, or the default when
    the key is missing. *)
Definition field_reads {A : Type} (tpd : list (string * json)) (key : string)
    (to_json : A -> json) (default value : A) : Prop :=
  match dict_lookup tpd key with
  | Some v => v = to_json value
  | None => value = default
  end.

Definition themes_json (l : list string) : json := JList (map JStr l).

(** The profile [tp] is the one written in the object [tpd]: every field
    is the value under its key, and a field without a key is the empty
    list (themes), the empty string (the five texts) or 0.7 (the score). *)
Definition profile_reads (tpd : list (string * json)) (tp : TasteProfile) : Prop :=
  field_reads tpd "themes" themes_json [] (themes tp) /\
  field_reads tpd "narrative_style" JStr EmptyString (narrative_style tp) /\
  field_reads tpd "emotional_tone" JStr EmptyString (emotional_tone tp) /\
  field_reads tpd "genre_fusion" JStr EmptyString (genre_fusion tp) /\
  field_reads tpd "character_preferences" JStr EmptyString (character_preferences tp) /\
  field_reads tpd "artistic_sensibilities" JStr EmptyString (artistic_sensibilities tp) /\
  field_reads tpd "confidence_score" JNum (7 # 10)%Q (confidence_score tp).

(** The response [r] was parsed from the reply [content]: the reply
    decodes to an object whose [unified_recommendations] array yields the
    books of [r], and whose [taste_profile] object (the empty one when the
    key is missing) is the profile of [r]. *)
Definition parsed_from (json_loads : string -> option json) (content : string)
    (r : RecommendationResponse) : Prop :=
  exists d entries tpd,
    GPTService.extract_data json_loads content = Return (Some (JDict d)) /\
    dict_lookup d "unified_recommendations" = Some (JList entries) /\
    GPTService.collect_books entries [] = Return (books r) /\
    dict_get d "taste_profile" (JDict []) = JDict tpd /\
    profile_reads tpd (taste_profile r).

(** What the caller of the generator gets for a non-empty movie list: one
    response, with the summary of the movies and at least one book, which
    is either the canned fallback, whose profile is fully populated, or
    the response parsed from the reply of the model. *)
Definition one_response (settings : Settings) (json_loads : string -> option json)
    (client : ChatRequest -> Completion) (movies : list string)
    (preferences : option UserPreferences)
    (out : result (list RecommendationResponse)) : Prop :=
  exists r,
    out = Return [r] /\
    GPTService._create_movie_summary movies (JDict []) = Return (movie r) /\
    books r <> [] /\
    ((books r = GPTService.fallback_books /\
      taste_profile r = GPTService.fallback_taste_profile /\
      fully_populated (taste_profile r) = true) \/
     (exists content,
        client (GPTService.generation_request settings
                  (GPTService._build_unified_prompt settings movies preferences)) =
          Content (Some content) /\
        parsed_from json_loads content r)).

(** A reply with one complete recommendation and a taste profile that
    gives two of its seven fields, and the profile read from it. *)
Definition reply_with_partial_profile : string :=
  dq "{'unified_recommendations': [{'title': 'Dune', 'author': 'Frank Herbert'}], 'taste_profile': {'themes': ['ecology'], 'emotional_tone': 'austere'}}".

Definition partial_profile : TasteProfile :=
  {| themes := ["ecology"];
     narrative_style := EmptyString;
     emotional_tone := "austere";
     genre_fusion := EmptyString;
     character_preferences := EmptyString;
     artistic_sensibilities := EmptyString;
     confidence_score := (7 # 10)%Q |}.

Definition dune_book : BookRecommendation :=
  {| title := "Dune"; author := "Frank Herbert"; reason := EmptyString;
     taste_match_score := None; primary_appeal := None |}.





(** A character of the ASCII range. *)
Definition is_ascii (c : ascii) : bool := (nat_of_ascii c <? 128)%nat.

(** * Properties *)

(** ** Strings *)

Lemma prefix_split (old s : string) :
  String.prefix old s = true -> s = old ++ drop (String.length old) s.
Proof.
  revert s; induction old as [|a old IH]; intros s H.
  - reflexivity.
  - destruct s as [|b s]; [discriminate|].
    simpl in H. destruct (Ascii.ascii_dec a b) as [->|ne]; [|discriminate].
    simpl. f_equal. now apply IH.
Qed.

Lemma braces_app (s t : string) : braces (s ++ t) = braces s ++ braces t.
Proof.
  induction s as [|c s IH]; simpl; [reflexivity|].
  destruct (Ascii.eqb c LBRACE || Ascii.eqb c RBRACE); simpl; now rewrite IH.
Qed.

Lemma take_app_length (s t : string) : take (String.length s) (s ++ t) = s.
Proof. induction s as [|c s IH]; simpl; [now destruct t|now rewrite IH]. Qed.

Lemma isspace_not_brace (c : ascii) :
  isspace c = true -> Ascii.eqb c LBRACE || Ascii.eqb c RBRACE = false.
Proof.
  intros H. destruct (Ascii.eqb c LBRACE) eqn:E1.
  - apply Ascii.eqb_eq in E1; subst; discriminate.
  - destruct (Ascii.eqb c RBRACE) eqn:E2; [|reflexivity].
    apply Ascii.eqb_eq in E2; subst; discriminate.
Qed.

Lemma braces_cons (c : ascii) (s : string) :
  braces (String c s) =
  if Ascii.eqb c LBRACE || Ascii.eqb c RBRACE then String c (braces s) else braces s.
Proof. reflexivity. Qed.

Lemma braces_lstrip (s : string) : braces (lstrip s) = braces s.
Proof.
  induction s as [|c s IH]; [reflexivity|].
  cbn [lstrip]. destruct (isspace c) eqn:E; [|reflexivity].
  now rewrite braces_cons, (isspace_not_brace c E).
Qed.

Lemma braces_rstrip (s : string) : braces (rstrip s) = braces s.
Proof.
  induction s as [|c s IH]; [reflexivity|].
  cbn [rstrip]. rewrite (braces_cons c s), <- IH.
  destruct (rstrip s) as [|d r] eqn:R.
  - destruct (isspace c) eqn:E.
    + now rewrite (isspace_not_brace c E).
    + now rewrite braces_cons.
  - now rewrite (braces_cons c (String d r)).
Qed.

Lemma braces_strip (s : string) : braces (strip s) = braces s.
Proof. unfold strip. now rewrite braces_rstrip, braces_lstrip. Qed.

(** Replacing a brace-free, non-empty pattern by a brace-free text keeps
    the braces; [skip] characters of a matched occurrence are still to be
    passed over. *)
Lemma braces_replace_from (old new : string) :
  old <> EmptyString ->
  braces old = EmptyString -> braces new = EmptyString ->
  forall s skip, braces (take skip s) = EmptyString ->
    braces (replace_from old new s skip) = braces s.
Proof.
  intros Hne Hold Hnew. induction s as [|c s IH]; intros skip Hskip.
  - reflexivity.
  - destruct skip as [|k].
    + cbn [replace_from].
      destruct (String.prefix old (String c s)) eqn:P.
      * apply prefix_split in P.
        destruct old as [|a old']; [congruence|].
        cbn [String.length drop append] in P. injection P as Hc Hs.
        rewrite braces_cons in Hold.
        destruct (Ascii.eqb a LBRACE || Ascii.eqb a RBRACE) eqn:Ea; [discriminate|].
        rewrite braces_app, Hnew. cbn [String.length append].
        replace (S (String.length old') - 1)%nat with (String.length old') by lia.
        rewrite braces_cons, Hc, Ea. apply IH.
        rewrite Hs, take_app_length. exact Hold.
      * rewrite !braces_cons, (IH 0%nat eq_refl). reflexivity.
    + cbn [replace_from]. cbn [take] in Hskip. rewrite braces_cons in *.
      destruct (Ascii.eqb c LBRACE || Ascii.eqb c RBRACE); [discriminate|].
      now apply IH.
Qed.

Lemma braces_replace (s old new : string) :
  old <> EmptyString ->
  braces old = EmptyString -> braces new = EmptyString ->
  braces (replace s old new) = braces s.
Proof.
  intros. unfold replace. now apply braces_replace_from.
Qed.

Lemma braces_clean_content (content : string) :
  braces (GPTService.clean_content content) = braces content.
Proof.
  unfold GPTService.clean_content.
  rewrite !braces_replace by (reflexivity || discriminate).
  apply braces_strip.
Qed.

(** The scan and the search for the first brace see the braces only. *)
Lemma returns_to_zero_braces (s : string) (depth : Z) :
  returns_to_zero (braces s) depth = returns_to_zero s depth.
Proof.
  revert depth; induction s as [|c s IH]; intros depth; [reflexivity|].
  rewrite braces_cons. cbn [returns_to_zero].
  destruct (Ascii.eqb c LBRACE) eqn:E1; cbn [orb returns_to_zero].
  - rewrite E1. apply IH.
  - destruct (Ascii.eqb c RBRACE) eqn:E2; cbn [returns_to_zero].
    + rewrite E1, E2, IH. reflexivity.
    + apply IH.
Qed.

Lemma from_first_brace_braces (s : string) :
  from_first_brace (braces s) = braces (from_first_brace s).
Proof.
  induction s as [|c s IH]; [reflexivity|].
  rewrite braces_cons. cbn [from_first_brace].
  destruct (Ascii.eqb c LBRACE) eqn:E1; cbn [orb from_first_brace].
  - rewrite E1, braces_cons, E1. reflexivity.
  - destruct (Ascii.eqb c RBRACE) eqn:E2; cbn [from_first_brace].
    + rewrite E1. exact IH.
    + exact IH.
Qed.

Lemma closes_clean_content (content : string) :
  returns_to_zero (from_first_brace (GPTService.clean_content content)) 0 =
  returns_to_zero (from_first_brace content) 0.
Proof.
  rewrite <- (returns_to_zero_braces (from_first_brace (GPTService.clean_content content))).
  rewrite <- (returns_to_zero_braces (from_first_brace content)).
  now rewrite <- !from_first_brace_braces, braces_clean_content.
Qed.

(** [find] and the slice from the position found. *)
Lemma find_from_spec (s : string) (i : Z) :
  0 <= i ->
  (find_from s LBRACE i = -1 /\ from_first_brace s = EmptyString) \/
  (exists n, find_from s LBRACE i = i + Z.of_nat n /\
             (n <= String.length s)%nat /\ drop n s = from_first_brace s).
Proof.
  revert i; induction s as [|c s IH]; intros i Hi.
  - left. split; reflexivity.
  - cbn [find_from from_first_brace]. destruct (Ascii.eqb c LBRACE) eqn:E.
    + right. exists 0%nat. split; [lia|]. split; [simpl; lia|reflexivity].
    + destruct (IH (i + 1) ltac:(lia)) as [[H1 H2]|[n [H1 [H2 H3]]]].
      * left. now split.
      * right. exists (S n). split; [lia|]. split; [simpl; lia|exact H3].
Qed.

Lemma slice_from_find (s : string) :
  find s LBRACE <> -1 ->
  0 <= find s LBRACE /\ slice_from s (find s LBRACE) = from_first_brace s.
Proof.
  intros H. unfold find in *.
  destruct (find_from_spec s 0 ltac:(lia)) as [[H1 _]|[n [H1 [H2 H3]]]]; [congruence|].
  rewrite H1. split; [lia|].
  unfold slice_from, clamp, len.
  replace (0 + Z.of_nat n <? 0) with false by (symmetry; apply Z.ltb_ge; lia).
  replace (Z.to_nat _) with n by lia. exact H3.
Qed.

(** When the depth never comes back to zero, the loop runs to the end and
    leaves [json_end] as it was. *)
Lemma scan_braces_never (s : string) (i depth json_end : Z) :
  returns_to_zero s depth = false ->
  GPTService.scan_braces s i depth json_end = json_end.
Proof.
  revert i depth; induction s as [|c s IH]; intros i depth H; [reflexivity|].
  cbn [GPTService.scan_braces returns_to_zero] in *.
  destruct (Ascii.eqb c LBRACE); [now apply IH|].
  destruct (Ascii.eqb c RBRACE); [|now apply IH].
  apply orb_false_iff in H as [H1 H2]. rewrite H1. now apply IH.
Qed.

Lemma count_zero_from_first_brace (s : string) :
  count s LBRACE = 0 -> from_first_brace s = EmptyString.
Proof.
  assert (Hnn : forall t, 0 <= count t LBRACE).
  { induction t as [|c t IH]; simpl; [lia|]. destruct (Ascii.eqb c LBRACE); lia. }
  induction s as [|c s IH]; [reflexivity|].
  cbn [count from_first_brace]. specialize (Hnn s).
  destruct (Ascii.eqb c LBRACE); intros H; [lia|]. apply IH. lia.
Qed.

(** ** The movie summary and the fallback *)

Lemma summary_of_nonempty (movies : list string) (tp : json) :
  movies <> [] -> exists s, GPTService._create_movie_summary movies tp = Return s.
Proof.
  intros H. destruct movies as [|a [|b [|c rest]]]; [congruence| | |];
    eexists; reflexivity.
Qed.

Lemma summary_ignores_profile (movies : list string) (tp tp' : json) :
  GPTService._create_movie_summary movies tp = GPTService._create_movie_summary movies tp'.
Proof. reflexivity. Qed.

Lemma summary_of_empty (tp : json) :
  GPTService._create_movie_summary [] tp = Raise IndexError.
Proof. reflexivity. Qed.

Lemma fallback_of_nonempty (movies : list string) :
  movies <> [] ->
  exists s, GPTService._create_movie_summary movies (JDict []) = Return s /\
            GPTService._create_fallback_response movies =
            Return [ {| movie := s;
                        books := GPTService.fallback_books;
                        taste_profile := GPTService.fallback_taste_profile |} ].
Proof.
  intros H. destruct (summary_of_nonempty movies (JDict []) H) as [s Hs].
  exists s. split; [exact Hs|]. unfold GPTService._create_fallback_response.
  now rewrite Hs.
Qed.

Lemma fallback_of_empty :
  GPTService._create_fallback_response [] = Raise IndexError.
Proof. reflexivity. Qed.

(** Both handlers of the parser end in the fallback: whatever the [try]
    block raised, and also when the block itself returned the fallback. *)
Lemma handlers_idempotent (movies : list string) :
  match GPTService._create_fallback_response movies with
  | Return r => Return r
  | Raise JSONDecodeError => GPTService._create_fallback_response movies
  | Raise _ => GPTService._create_fallback_response movies
  end = GPTService._create_fallback_response movies.
Proof.
  destruct (GPTService._create_fallback_response movies) as [r|e]; [reflexivity|].
  now destruct e.
Qed.

(** ** Extraction of the object *)

Lemma extract_data_unclosed (json_loads : string -> option json) (content : string) :
  returns_to_zero (from_first_brace content) 0 = false ->
  GPTService.extract_data json_loads content = Return None.
Proof.
  intros H. rewrite <- closes_clean_content in H.
  unfold GPTService.extract_data.
  set (c := GPTService.clean_content content) in *.
  destruct (find c LBRACE =? -1) eqn:E; [reflexivity|].
  apply Z.eqb_neq in E. destruct (slice_from_find c E) as [Hpos Hs].
  cbn [negb]. rewrite Hs, (scan_braces_never _ _ _ _ H).
  replace (find c LBRACE >? find c LBRACE) with false; [reflexivity|].
  symmetry. rewrite Z.gtb_ltb. apply Z.ltb_irrefl.
Qed.

Lemma parse_unclosed (json_loads : string -> option json)
    (content : string) (movies : list string) :
  returns_to_zero (from_first_brace content) 0 = false ->
  GPTService._parse_unified_response json_loads (Some content) movies =
  GPTService._create_fallback_response movies.
Proof.
  intros H. unfold GPTService._parse_unified_response, GPTService.parse_body.
  rewrite (extract_data_unclosed json_loads content H). cbn [bind].
  apply handlers_idempotent.
Qed.

(** C3. A reply without any opening brace, and a reply whose brace depth,
    counted from its first opening brace, never comes back to zero, are
    answered with the fallback response, for every decoder and every movie
    list; no parsed result comes out of such a reply. *)
Theorem no_complete_object_routes_to_fallback
    (json_loads : string -> option json) (reply : string) (movies : list string) :
  count reply LBRACE = 0 \/ returns_to_zero (from_first_brace reply) 0 = false ->
  GPTService.extract_data json_loads reply = Return None /\
  GPTService._parse_unified_response json_loads (Some reply) movies =
  GPTService._create_fallback_response movies.
Proof.
  intros H.
  assert (H' : returns_to_zero (from_first_brace reply) 0 = false).
  { destruct H as [H|H]; [|exact H].
    now rewrite (count_zero_from_first_brace reply H). }
  split; [now apply extract_data_unclosed|now apply parse_unclosed].
Qed.

Lemma no_complete_object_routes_to_fallback_witness :
  GPTService._parse_unified_response JsonSubset.loads
    (Some "Sorry, I cannot help with that.") ["Inception"] =
  GPTService._create_fallback_response ["Inception"] /\
  GPTService._parse_unified_response JsonSubset.loads
    (Some (dq "{'unified_recommendations': [{'title': 'Dune'}]")) ["Inception"] =
  GPTService._create_fallback_response ["Inception"].
Proof.
  split.
  - apply (no_complete_object_routes_to_fallback JsonSubset.loads
             "Sorry, I cannot help with that." ["Inception"]).
    left. vm_compute. reflexivity.
  - apply (no_complete_object_routes_to_fallback JsonSubset.loads
             (dq "{'unified_recommendations': [{'title': 'Dune'}]") ["Inception"]).
    right. vm_compute. reflexivity.
Defined.

(** ** The generator never fails on a non-empty movie list *)

Lemma usable_fallback (movies : list string) :
  movies <> [] -> usable_result movies (GPTService._create_fallback_response movies).
Proof.
  intros H. destruct (fallback_of_nonempty movies H) as [s [Hs Hf]].
  eexists. split; [exact Hf|]. cbn. split; [exact Hs|].
  split; [discriminate|]. now left.
Qed.

Lemma build_response_usable (data : json) (movies : list string) :
  movies <> [] ->
  raises (GPTService.build_response data movies) = true \/
  usable_result movies (GPTService.build_response data movies).
Proof.
  intros H. unfold GPTService.build_response.
  destruct (GPTService.contains data "unified_recommendations") as [has|e];
    [|now left].
  cbn [bind]. destruct has; cbn [negb]; [|right; now apply usable_fallback].
  destruct (as_dict data) as [d|e]; [|now left]. cbn [bind].
  destruct (py_iter _) as [entries|e]; [|now left]. cbn [bind].
  destruct (GPTService.collect_books entries []) as [ub|e]; [|now left].
  cbn [bind]. destruct ub as [|b ub]; [right; now apply usable_fallback|].
  destruct (as_dict _) as [tpd|e]; [|now left]. cbn [bind].
  destruct (GPTService.build_taste_profile tpd) as [tp|e] eqn:Etp; [|now left].
  cbn [bind]. destruct (summary_of_nonempty movies (JDict []) H) as [s Hs].
  rewrite (summary_ignores_profile movies (JDict tpd) (JDict [])), Hs. cbn [bind].
  right. eexists. split; [reflexivity|]. cbn. split; [exact Hs|].
  split; [discriminate|]. right. now exists tpd.
Qed.

Lemma parse_usable (json_loads : string -> option json)
    (content : option string) (movies : list string) :
  movies <> [] ->
  usable_result movies (GPTService._parse_unified_response json_loads content movies).
Proof.
  intros H. pose proof (usable_fallback movies H) as Hf.
  unfold GPTService._parse_unified_response.
  assert (Hb : raises (GPTService.parse_body json_loads content movies) = true \/
               usable_result movies (GPTService.parse_body json_loads content movies)).
  { unfold GPTService.parse_body. destruct content as [c|]; [|now left].
    destruct (GPTService.extract_data json_loads c) as [[data|]|e]; cbn [bind].
    - now apply build_response_usable.
    - now right.
    - now left. }
  destruct (GPTService.parse_body json_loads content movies) as [r|e].
  - destruct Hb as [Hb|Hb]; [discriminate|exact Hb].
  - now destruct e.
Qed.

Lemma empty_list_build_raises (data : json) :
  raises (GPTService.build_response data []) = true.
Proof.
  unfold GPTService.build_response.
  destruct (GPTService.contains data _) as [has|e]; [|reflexivity].
  cbn [bind]. destruct has; [|reflexivity]. cbn [negb].
  destruct (as_dict data) as [d|e]; [|reflexivity]. cbn [bind].
  destruct (py_iter _) as [entries|e]; [|reflexivity]. cbn [bind].
  destruct (GPTService.collect_books entries []) as [ub|e]; [|reflexivity].
  cbn [bind]. destruct ub; [reflexivity|].
  destruct (as_dict _) as [tpd|e]; [|reflexivity]. cbn [bind].
  destruct (GPTService.build_taste_profile tpd) as [p|e]; reflexivity.
Qed.

Lemma empty_list_parse_raises (json_loads : string -> option json)
    (content : option string) :
  GPTService._parse_unified_response json_loads content [] = Raise IndexError.
Proof.
  unfold GPTService._parse_unified_response, GPTService.parse_body.
  destruct content as [c|]; [|reflexivity].
  destruct (GPTService.extract_data json_loads c) as [[data|]|e]; cbn [bind].
  - pose proof (empty_list_build_raises data) as Hb.
    destruct (GPTService.build_response data []) as [r|e]; [discriminate|].
    now destruct e.
  - reflexivity.
  - now destruct e.
Qed.

(** C10. On the empty movie list the summary fails with an [IndexError]
    at [movies[-1]], the fallback builder fails with it, and so do the
    parser and the generator, whose handlers call the fallback builder:
    the exception reaches the caller whatever the model replies. *)
Theorem empty_movie_list_raises
    (settings : Settings) (json_loads : string -> option json)
    (client : ChatRequest -> Completion)
    (content : option string) (preferences : option UserPreferences) (tp : json) :
  GPTService._create_movie_summary [] tp = Raise IndexError /\
  GPTService._create_fallback_response [] = Raise IndexError /\
  GPTService._parse_unified_response json_loads content [] = Raise IndexError /\
  GPTService.generate_recommendations settings json_loads client [] preferences =
  Raise IndexError.
Proof.
  repeat split; try reflexivity; [apply empty_list_parse_raises|].
  unfold GPTService.generate_recommendations.
  destruct (client _) as [e|c]; [reflexivity|].
  now rewrite empty_list_parse_raises.
Qed.

(** ** The summary text *)

Lemma last_cons_default (l : list string) (x d d' : string) :
  List.last (x :: l) d = List.last (x :: l) d'.
Proof.
  revert x; induction l as [|y l IH]; intros x; [reflexivity|].
  change (List.last (y :: l) d = List.last (y :: l) d'). apply IH.
Qed.

(** C4. The summary of one movie [m] is "Based on your interest in m", of
    two movies [a], [b] it is "Based on your taste for a and b", and of
    three or more it is "Based on your taste profile from " followed by
    all titles but the last joined by ", ", then ", and " and the last
    title. *)
Theorem movie_summary_text (tp : json) :
  (forall m,
     GPTService._create_movie_summary [m] tp =
     Return ("Based on your interest in " ++ m)) /\
  (forall a b,
     GPTService._create_movie_summary [a; b] tp =
     Return ("Based on your taste for " ++ a ++ " and " ++ b)) /\
  (forall a b c rest,
     let movies := a :: b :: c :: rest in
     GPTService._create_movie_summary movies tp =
     Return ("Based on your taste profile from " ++
             join ", " (List.removelast movies) ++ ", and " ++ List.last movies EmptyString)) /\
  GPTService._create_movie_summary ["Inception"] tp =
    Return "Based on your interest in Inception" /\
  GPTService._create_movie_summary ["A"; "B"] tp =
    Return "Based on your taste for A and B" /\
  GPTService._create_movie_summary ["A"; "B"; "C"] tp =
    Return "Based on your taste profile from A, B, and C".
Proof.
  repeat split; try reflexivity.
  intros a b c rest movies. subst movies.
  unfold GPTService._create_movie_summary, GPTService.last_item,
    GPTService.all_but_last.
  cbn [bind]. do 3 f_equal.
  change (List.last (a :: b :: c :: rest) EmptyString) with (List.last (b :: c :: rest) EmptyString).
  f_equal. apply last_cons_default.
Qed.

(** C5, as the specification words it: the summary of two movies would
    read "Based on your interest in m1 and m2".  It does not. *)
Lemma two_movie_summary_is_not_interest_in :
  GPTService._create_movie_summary ["Heat"; "Ronin"] (JDict []) <>
  Return "Based on your interest in Heat and Ronin".
Proof. discriminate. Qed.

(** C5, amended. The summary of two movies [m1], [m2] is "Based on your
    taste for m1 and m2"; and for every movie list the summary is the same
    whatever dict of parsed content is handed to the function, so it
    depends on the movie list only. *)
Theorem two_movie_summary_and_independence :
  (forall m1 m2 tp,
     GPTService._create_movie_summary [m1; m2] tp =
     Return ("Based on your taste for " ++ m1 ++ " and " ++ m2)) /\
  (forall movies tp tp',
     GPTService._create_movie_summary movies tp =
     GPTService._create_movie_summary movies tp').
Proof. split; reflexivity. Qed.

(** ** The constraints block of the prompt *)

Lemma append_assoc (a b c : string) : (a ++ b) ++ c = a ++ (b ++ c).
Proof. induction a as [|x a IH]; simpl; [reflexivity|now rewrite IH]. Qed.

Lemma constraint_list_in_order (p : UserPreferences) :
  GPTService.constraint_list p = bullets_in_order p.
Proof.
  unfold GPTService.constraint_list, bullets_in_order, bullet_if, append1.
  destruct (GPTService.str_set (mood p)), (GPTService.str_set (pace p)),
    (GPTService.list_set (genre_preferences p)),
    (GPTService.list_set (genre_blocklist p)); reflexivity.
Qed.

(** C6. The prompt is a fixed head, the constraints block, and a fixed
    tail.  The bullet lines of the block are those of the fields that are
    set, in the order mood, pace, favored genres, avoided genres, the
    genres joined by commas, each line led by a bullet.  When the mood is the only field set the block
    is the heading and the single line "Mood alignment: " with the mood
    (for the mood "dark": "Mood alignment: dark"); when no field is set, or
    no preferences are given, there is no block at all. *)
Theorem constraints_block_rendering
    (settings : Settings) (movies : list string) (p : UserPreferences) :
  (exists head tail, forall preferences,
     GPTService._build_unified_prompt settings movies preferences =
     head ++ GPTService.constraints_block preferences ++ tail) /\
  GPTService.constraint_list p = bullets_in_order p /\
  (only_mood_set p = true ->
   GPTService.constraint_list p = ["Mood alignment: " ++ GPTService.str_val (mood p)] /\
   GPTService.constraints_block (Some p) =
   NL ++ NL ++ "CONSTRAINTS:" ++ NL ++ "• Mood alignment: " ++ GPTService.str_val (mood p)) /\
  (nothing_set p = true ->
   GPTService.constraint_list p = [] /\
   GPTService.constraints_block (Some p) = EmptyString /\
   GPTService._build_unified_prompt settings movies (Some p) =
   GPTService._build_unified_prompt settings movies None) /\
  (nothing_set p = false ->
   GPTService.constraints_block (Some p) =
   NL ++ NL ++ "CONSTRAINTS:" ++ NL ++ "• " ++ join (NL ++ "• ") (bullets_in_order p)) /\
  GPTService.constraints_block (Some (only_mood "dark")) =
    NL ++ NL ++ "CONSTRAINTS:" ++ NL ++ "• Mood alignment: dark" /\
  GPTService.constraints_block (Some all_four_set) =
    NL ++ NL ++ "CONSTRAINTS:" ++ NL ++ "• Mood alignment: dark" ++ NL ++
    "• Pacing: slow" ++ NL ++ "• Favor: noir, sci-fi" ++ NL ++ "• Avoid: romance" /\
  GPTService.constraints_block None = EmptyString.
Proof.
  split.
  { eexists. eexists. intros preferences. unfold GPTService._build_unified_prompt.
    cbv zeta. rewrite append_assoc. reflexivity. }
  split; [apply constraint_list_in_order|].
  split.
  { intros H. unfold only_mood_set in H.
    apply andb_prop in H as [H H4]. apply andb_prop in H as [H H3].
    apply andb_prop in H as [H1 H2].
    apply negb_true_iff in H2, H3, H4.
    assert (E : GPTService.constraint_list p =
                ["Mood alignment: " ++ GPTService.str_val (mood p)]).
    { rewrite constraint_list_in_order. unfold bullets_in_order.
      now rewrite H1, H2, H3, H4. }
    split; [exact E|]. unfold GPTService.constraints_block. now rewrite E. }
  split.
  { intros H. unfold nothing_set in H.
    apply andb_prop in H as [H H4]. apply andb_prop in H as [H H3].
    apply andb_prop in H as [H1 H2].
    apply negb_true_iff in H1, H2, H3, H4.
    assert (E : GPTService.constraint_list p = []).
    { rewrite constraint_list_in_order. unfold bullets_in_order.
      now rewrite H1, H2, H3, H4. }
    assert (B : GPTService.constraints_block (Some p) = EmptyString).
    { unfold GPTService.constraints_block. now rewrite E. }
    split; [exact E|]. split; [exact B|].
    unfold GPTService._build_unified_prompt. cbv zeta. now rewrite B. }
  split.
  { intros H. unfold GPTService.constraints_block.
    rewrite constraint_list_in_order.
    destruct (bullets_in_order p) as [|l ls] eqn:E; [|reflexivity].
    exfalso. revert H E. unfold nothing_set, bullets_in_order, bullet_if.
    destruct (GPTService.str_set (mood p)), (GPTService.str_set (pace p)),
      (GPTService.list_set (genre_preferences p)),
      (GPTService.list_set (genre_blocklist p)); cbn; congruence. }
  repeat split; reflexivity.
Qed.

Lemma constraints_block_rendering_witness :
  GPTService.constraint_list (only_mood "dark") = ["Mood alignment: dark"] /\
  GPTService.constraints_block
    (Some {| mood := Some EmptyString; pace := None;
             genre_preferences := Some []; genre_blocklist := None |}) = EmptyString.
Proof.
  split.
  - apply (proj1 (proj2 (proj2 (constraints_block_rendering
                                  demo_settings ["Inception"] (only_mood "dark"))))).
    reflexivity.
  - apply (proj1 (proj2 (proj2 (proj2 (constraints_block_rendering
             demo_settings ["Inception"]
             {| mood := Some EmptyString; pace := None;
                genre_preferences := Some []; genre_blocklist := None |}))))).
    reflexivity.
Defined.

(** ** Filtering of the recommended books *)

Lemma lookup_none_falsy (d : list (string * json)) (key : string) :
  dict_has d key = false -> truthy (dict_get d key JNull) = false.
Proof.
  unfold dict_has, dict_get. now destruct (dict_lookup d key).
Qed.

Lemma collect_books_skip (entry : json) (rest : list json)
    (acc : list BookRecommendation) :
  lacks_title_or_author entry = true ->
  GPTService.collect_books (entry :: rest) acc = GPTService.collect_books rest acc.
Proof.
  intros H. destruct entry as [| | | | |d]; try discriminate.
  cbn [GPTService.collect_books as_dict bind].
  cbn [lacks_title_or_author] in H.
  apply orb_true_iff in H as [H|H]; apply negb_true_iff in H;
    rewrite (lookup_none_falsy d _ H); cbn [negb orb]; [reflexivity|].
  now rewrite orb_true_r.
Qed.

Lemma collect_books_all_skipped (entries : list json) (acc : list BookRecommendation) :
  forallb lacks_title_or_author entries = true ->
  GPTService.collect_books entries acc = Return acc.
Proof.
  induction entries as [|e entries IH]; intros H; [reflexivity|].
  cbn [forallb] in H. apply andb_prop in H as [H1 H2].
  rewrite (collect_books_skip e entries acc H1). now apply IH.
Qed.

Lemma parse_no_surviving_book (json_loads : string -> option json)
    (content : string) (movies : list string)
    (d : list (string * json)) (v : json) (entries : list json) :
  GPTService.extract_data json_loads content = Return (Some (JDict d)) ->
  dict_lookup d "unified_recommendations" = Some v ->
  py_iter v = Return entries ->
  GPTService.collect_books entries [] = Return [] ->
  GPTService._parse_unified_response json_loads (Some content) movies =
  GPTService._create_fallback_response movies.
Proof.
  intros Hx Hl Hi Hc.
  unfold GPTService._parse_unified_response, GPTService.parse_body.
  rewrite Hx. cbn [bind]. unfold GPTService.build_response.
  cbn [GPTService.contains bind as_dict]. unfold dict_has, dict_get.
  rewrite Hl. cbn [negb]. rewrite Hi. cbn [bind]. rewrite Hc. cbn [bind].
  apply handlers_idempotent.
Qed.

(** C7. An entry of [unified_recommendations] that has no title or no
    author is passed over: the loop goes on with the books collected so
    far and raises nothing.  When no entry survives (in particular when
    every entry lacks its title or its author, as when the only entry has
    no author) the parser answers with the fallback; and a response the
    parser returns never has an empty book list. *)
Theorem entries_without_title_or_author
    (json_loads : string -> option json) (content : string) (movies : list string)
    (d : list (string * json)) (entries : list json) :
  (forall entry rest acc,
     lacks_title_or_author entry = true ->
     GPTService.collect_books (entry :: rest) acc =
     GPTService.collect_books rest acc) /\
  (GPTService.extract_data json_loads content = Return (Some (JDict d)) ->
   dict_lookup d "unified_recommendations" = Some (JList entries) ->
   (forallb lacks_title_or_author entries = true \/
    GPTService.collect_books entries [] = Return []) ->
   GPTService._parse_unified_response json_loads (Some content) movies =
   GPTService._create_fallback_response movies) /\
  (forall out r,
     GPTService._parse_unified_response json_loads (Some content) movies = Return out ->
     In r out -> books r <> []).
Proof.
  split; [exact collect_books_skip|]. split.
  - intros Hx Hl Hz.
    apply (parse_no_surviving_book json_loads content movies d (JList entries) entries Hx Hl);
      [reflexivity|].
    destruct Hz as [Hz|Hz]; [now apply collect_books_all_skipped|exact Hz].
  - intros out r Hp Hin. destruct movies as [|m movies].
    + pose proof (empty_list_parse_raises json_loads (Some content)) as E.
      rewrite E in Hp. discriminate.
    + assert (Hne : m :: movies <> []) by discriminate.
      destruct (parse_usable json_loads (Some content) (m :: movies) Hne)
        as [r' [Hr [_ [Hb _]]]].
      rewrite Hr in Hp. injection Hp as <-.
      destruct Hin as [<-|[]]. exact Hb.
Qed.

Lemma entries_without_title_or_author_witness :
  GPTService._parse_unified_response JsonSubset.loads
    (Some reply_without_author) ["Inception"] =
  GPTService._create_fallback_response ["Inception"].
Proof.
  apply (proj1 (proj2 (entries_without_title_or_author JsonSubset.loads
           reply_without_author ["Inception"]
           [("unified_recommendations",
             JList [JDict [("title", JStr "Dune"); ("reason", JStr "a great book")]])]
           [JDict [("title", JStr "Dune"); ("reason", JStr "a great book")]]))).
  - vm_compute. reflexivity.
  - reflexivity.
  - left. reflexivity.
Defined.

(** ** The taste profile of a parsed reply *)

Lemma field_arg_missing (tpd : list (string * json)) (f : ProfileField) :
  dict_has tpd (GPTService.field_key f) = false ->
  GPTService.field_arg tpd f = GPTService.field_default f.
Proof.
  unfold dict_has, GPTService.field_arg, dict_get.
  now destruct (dict_lookup tpd (GPTService.field_key f)).
Qed.

Lemma parse_success (json_loads : string -> option json)
    (content : string) (movies : list string)
    (d tpd : list (string * json)) (entries : list json)
    (b : BookRecommendation) (bs : list BookRecommendation)
    (tp : TasteProfile) (s : string) :
  GPTService.extract_data json_loads content = Return (Some (JDict d)) ->
  dict_lookup d "unified_recommendations" = Some (JList entries) ->
  GPTService.collect_books entries [] = Return (b :: bs) ->
  dict_get d "taste_profile" (JDict []) = JDict tpd ->
  GPTService.build_taste_profile tpd = Return tp ->
  GPTService._create_movie_summary movies (JDict []) = Return s ->
  GPTService._parse_unified_response json_loads (Some content) movies =
  Return [ {| movie := s; books := b :: bs; taste_profile := tp |} ].
Proof.
  intros Hx Hl Hc Ht Hb Hs.
  unfold GPTService._parse_unified_response, GPTService.parse_body.
  rewrite Hx. cbn [bind]. unfold GPTService.build_response.
  cbn [GPTService.contains bind as_dict]. unfold dict_has.
  rewrite Hl. cbn [negb]. unfold dict_get at 1. rewrite Hl.
  cbn [py_iter bind]. rewrite Hc. cbn [bind]. rewrite Ht. cbn [as_dict bind].
  rewrite Hb. cbn [bind].
  rewrite (summary_ignores_profile movies (JDict tpd) (JDict [])), Hs.
  reflexivity.
Qed.

(** C8, as the specification words it: every missing field other than the
    confidence score would default to the empty string.  The themes do
    not: their default is the empty list, and so the profile of a reply
    without a [taste_profile] object has the empty list of themes. *)
Lemma themes_default_is_not_empty_string :
  ~ (forall f, f <> ConfidenceScore -> GPTService.field_arg [] f = JStr EmptyString) /\
  GPTService.field_arg [] Themes = JList [] /\
  GPTService._parse_unified_response JsonSubset.loads
    (Some reply_without_profile) ["Inception"] =
  Return [ {| movie := "Based on your interest in Inception";
              books := [ {| title := "Dune"; author := "Frank Herbert"; reason := EmptyString;
                            taste_match_score := None; primary_appeal := None |} ];
              taste_profile := default_taste_profile |} ].
Proof.
  split; [|split; [reflexivity|vm_compute; reflexivity]].
  intros H. specialize (H Themes ltac:(discriminate)). discriminate.
Qed.

(** ** The two fallbacks *)

(** C9. Whenever the [try] block of [analyze_taste_profile] fails (the
    call fails, the content is [None], or the text between the braces
    does not decode), the function returns the mapping [analysis_fallback],
    a constant whose confidence score is 0.5; it never raises.  The
    fallback of the generator is another constant, with the confidence
    score 0.6, returned whenever the generator's call fails.  Neither
    function reads anything but its arguments, so the same failure gives
    the same fallback under every client, decoder and settings the other
    operation is run with. *)
Theorem fallbacks_are_distinct_constants
    (settings : Settings) (json_loads : string -> option json)
    (client : ChatRequest -> Completion)
    (movies : list string) (preferences : option UserPreferences) :
  (raises (GPTService.analyze_body settings json_loads client movies) = true ->
   GPTService.analyze_taste_profile settings json_loads client movies preferences =
   Return GPTService.analysis_fallback) /\
  raises (GPTService.analyze_taste_profile settings json_loads client movies preferences)
    = false /\
  match GPTService.analysis_fallback with
  | JDict items => dict_lookup items "confidence_score" = Some (JNum (5 # 10))
  | _ => False
  end /\
  confidence_score GPTService.fallback_taste_profile = (6 # 10)%Q /\
  ~ (5 # 10 == 6 # 10)%Q /\
  (forall e, client (GPTService.generation_request settings
                       (GPTService._build_unified_prompt settings movies preferences))
             = Failed e ->
     GPTService.generate_recommendations settings json_loads client movies preferences =
     GPTService._create_fallback_response movies) /\
  (forall m rest, movies = m :: rest ->
     exists s, GPTService._create_fallback_response movies =
               Return [ {| movie := s;
                           books := GPTService.fallback_books;
                           taste_profile := GPTService.fallback_taste_profile |} ]).
Proof.
  split.
  { intros H. unfold GPTService.analyze_taste_profile.
    destruct (GPTService.analyze_body settings json_loads client movies);
      [discriminate|reflexivity]. }
  split.
  { unfold GPTService.analyze_taste_profile.
    now destruct (GPTService.analyze_body settings json_loads client movies). }
  split; [reflexivity|]. split; [reflexivity|]. split; [discriminate|]. split.
  - intros e He. unfold GPTService.generate_recommendations. now rewrite He.
  - intros m rest ->.
    destruct (fallback_of_nonempty (m :: rest) ltac:(discriminate)) as [s [_ Hs]].
    now exists s.
Qed.

Lemma fallbacks_are_distinct_constants_witness :
  GPTService.analyze_taste_profile demo_settings JsonSubset.loads
    (replying (Content (Some "no braces here"))) ["Inception"] None =
  Return GPTService.analysis_fallback /\
  GPTService.analyze_taste_profile demo_settings JsonSubset.loads
    (replying (Failed APIError)) ["Inception"] None =
  Return GPTService.analysis_fallback.
Proof.
  split.
  - apply (proj1 (fallbacks_are_distinct_constants demo_settings JsonSubset.loads
                    (replying (Content (Some "no braces here"))) ["Inception"] None)).
    vm_compute. reflexivity.
  - apply (proj1 (fallbacks_are_distinct_constants demo_settings JsonSubset.loads
                    (replying (Failed APIError)) ["Inception"] None)).
    reflexivity.
Defined.

(** * Further properties of the service *)

(** ** The extracted object *)

Lemma first_object_none (s : string) (depth : Z) :
  first_object s depth = None <-> returns_to_zero s depth = false.
Proof.
  revert depth; induction s as [|c s IH]; intros depth; [now split|].
  cbn [first_object returns_to_zero].
  destruct (Ascii.eqb c LBRACE).
  - rewrite <- IH. destruct (first_object s (depth + 1)); cbn; split; congruence.
  - destruct (Ascii.eqb c RBRACE).
    + destruct (depth - 1 =? 0); cbn [orb]; [split; discriminate|].
      rewrite <- IH. destruct (first_object s (depth - 1)); cbn; split; congruence.
    + rewrite <- IH. destruct (first_object s depth); cbn; split; congruence.
Qed.

(** The loop stops right after the object: [json_end] is the start plus
    the length of the object, which is a prefix of the scanned text. *)
Lemma scan_braces_first_object (s o : string) (i depth json_end : Z) :
  first_object s depth = Some o ->
  GPTService.scan_braces s i depth json_end = i + len o /\
  take (String.length o) s = o /\ (1 <= String.length o <= String.length s)%nat.
Proof.
  revert o i depth; induction s as [|c s IH]; intros o i depth H; [discriminate|].
  cbn [first_object GPTService.scan_braces] in *.
  assert (step : forall d, option_map (String c) (first_object s d) = Some o ->
            GPTService.scan_braces s (i + 1) d json_end = i + len o /\
            take (String.length o) (String c s) = o /\
            (1 <= String.length o <= String.length (String c s))%nat).
  { intros d Hd. destruct (first_object s d) as [o'|] eqn:E; [|discriminate].
    injection Hd as <-. destruct (IH o' (i + 1) d E) as [H1 [H2 H3]].
    split; [rewrite H1; unfold len; cbn [String.length]; lia|].
    split; [cbn [String.length take]; now rewrite H2|cbn [String.length]; lia]. }
  destruct (Ascii.eqb c LBRACE); [now apply step|].
  destruct (Ascii.eqb c RBRACE); [|now apply step].
  destruct (depth - 1 =? 0); [|now apply step].
  injection H as <-. split; [reflexivity|]. split; [reflexivity|].
  cbn [String.length]. lia.
Qed.

Lemma take_drop_length (n : nat) (s : string) :
  (n <= String.length s)%nat ->
  String.length (drop n s) = (String.length s - n)%nat.
Proof.
  revert s; induction n as [|n IH]; intros s H; [cbn; lia|].
  destruct s as [|c s]; [cbn in H; lia|]. cbn [drop String.length] in *.
  rewrite IH; lia.
Qed.

Lemma find_bound (s : string) :
  find s LBRACE <> -1 ->
  exists n, find s LBRACE = Z.of_nat n /\ (n <= String.length s)%nat /\
            drop n s = from_first_brace s.
Proof.
  intros H. unfold find in *.
  destruct (find_from_spec s 0 ltac:(lia)) as [[H1 _]|[n [H1 [H2 H3]]]]; [congruence|].
  exists n. split; [lia|]. now split.
Qed.

(** When the cleaned reply holds a complete object, the index arithmetic
    of the extraction (find, scan, slice) cuts out exactly that object. *)
Lemma extract_data_some
    (json_loads : string -> option json) (content o : string) :
  first_object (from_first_brace (GPTService.clean_content content)) 0 = Some o ->
  GPTService.extract_data json_loads content =
  (data <- GPTService.loads json_loads (GPTService.repair_json o) ;;
   Return (Some data)).
Proof.
  intros E.
  unfold GPTService.extract_data.
  set (c := GPTService.clean_content content) in *.
  destruct (find c LBRACE =? -1) eqn:F.
  - apply Z.eqb_eq in F. exfalso.
    destruct (find_from_spec c 0 ltac:(lia)) as [[_ H2]|[n [H1 _]]].
    + rewrite H2 in E. discriminate.
    + unfold find in F. lia.
  - apply Z.eqb_neq in F. cbn [negb].
    destruct (find_bound c F) as [n [Hn [Hle Hd]]].
    destruct (slice_from_find c F) as [_ Hs]. rewrite Hs.
    destruct (scan_braces_first_object _ o (find c LBRACE) 0 (find c LBRACE) E)
      as [H1 [H2 H3]].
    rewrite H1. unfold len.
    replace (find c LBRACE + Z.of_nat (String.length o) >? find c LBRACE) with true
      by (symmetry; apply Z.gtb_lt; lia).
    assert (Hl : (String.length o <= String.length c - n)%nat).
    { rewrite <- Hd, take_drop_length in H3 by exact Hle. lia. }
    replace (slice c (find c LBRACE) (find c LBRACE + Z.of_nat (String.length o)))
      with o; [reflexivity|].
    unfold slice, clamp, len. rewrite Hn.
    replace (Z.of_nat n <? 0) with false by (symmetry; apply Z.ltb_ge; lia).
    replace (Z.of_nat n + Z.of_nat (String.length o) <? 0) with false
      by (symmetry; apply Z.ltb_ge; lia).
    replace (Z.to_nat (Z.max 0 (Z.min (Z.of_nat n) (Z.of_nat (String.length c)))))
      with n by lia.
    replace (Z.to_nat _) with (String.length o) by lia.
    rewrite Hd. now rewrite H2.
Qed.

(** X1. [extract_data] hands the decoder the repaired text of exactly one
    object: the part of the cleaned reply that starts at the first opening
    brace and ends at the closing brace where the depth first comes back
    to zero; and it reports no object when there is none. *)
Theorem extract_data_first_object
    (json_loads : string -> option json) (content : string) :
  GPTService.extract_data json_loads content =
  match first_object (from_first_brace (GPTService.clean_content content)) 0 with
  | Some o => data <- GPTService.loads json_loads (GPTService.repair_json o) ;;
              Return (Some data)
  | None => Return None
  end.
Proof.
  destruct (first_object (from_first_brace (GPTService.clean_content content)) 0)
    as [o|] eqn:E.
  - now apply extract_data_some.
  - apply first_object_none in E. rewrite closes_clean_content in E.
    now apply extract_data_unclosed.
Qed.

(** ** The text handed to the decoder *)

Lemma count_nonneg (s : string) (c : ascii) : 0 <= count s c.
Proof.
  induction s as [|a s IH]; cbn [count]; [lia|]. destruct (Ascii.eqb a c); lia.
Qed.

Lemma count_app (s t : string) (c : ascii) :
  count (s ++ t) c = count s c + count t c.
Proof.
  induction s as [|a s IH]; cbn [count append]; [lia|]. rewrite IH. lia.
Qed.

Lemma count_take_le (n : nat) (s : string) (c : ascii) :
  count (take n s) c <= count s c.
Proof.
  revert s; induction n as [|n IH]; intros s.
  - cbn [take]. destruct s; cbn [count]; [lia|apply (count_nonneg (String a s) c)].
  - destruct s as [|a s]; cbn [take count]; [lia|]. specialize (IH s). lia.
Qed.

Lemma count_repeat (a c : ascii) (k : Z) :
  count (PyStr.repeat a k) c = if Ascii.eqb a c then Z.max 0 k else 0.
Proof.
  unfold PyStr.repeat.
  assert (H : forall n, count (string_of_list_ascii (List.repeat a n)) c =
                        if Ascii.eqb a c then Z.of_nat n else 0).
  { induction n as [|n IH]; cbn [List.repeat string_of_list_ascii count].
    - now destruct (Ascii.eqb a c).
    - rewrite IH. destruct (Ascii.eqb a c); lia. }
  rewrite H. destruct (Ascii.eqb a c); lia.
Qed.

Lemma prefix_nil (s : string) : String.prefix EmptyString s = true.
Proof. now destruct s. Qed.

(** Replacing a single character. *)
Lemma replace_char_step (a c : ascii) (new s : string) :
  replace_from (String a EmptyString) new (String c s) 0 =
  if Ascii.eqb a c
  then new ++ replace_from (String a EmptyString) new s 0
  else String c (replace_from (String a EmptyString) new s 0).
Proof.
  cbn [replace_from String.prefix String.length Nat.sub].
  destruct (Ascii.ascii_dec a c) as [->|ne].
  - now rewrite prefix_nil, Ascii.eqb_refl.
  - apply Ascii.eqb_neq in ne. now rewrite ne.
Qed.

Lemma count_replace_char (s new : string) (a c : ascii) :
  count new c = 0 ->
  count (replace s (String a EmptyString) new) c =
  if Ascii.eqb a c then 0 else count s c.
Proof.
  intros Hnew. unfold replace. induction s as [|x s IH].
  - cbn. now destruct (Ascii.eqb a c).
  - rewrite replace_char_step. destruct (Ascii.eqb a x) eqn:E.
    + apply Ascii.eqb_eq in E. subst x. rewrite count_app, Hnew, IH.
      cbn [count]. destruct (Ascii.eqb a c); lia.
    + cbn [count]. rewrite IH. destruct (Ascii.eqb a c) eqn:E2; [|reflexivity].
      apply Ascii.eqb_eq in E2. subst c. rewrite Ascii.eqb_sym, E. lia.
Qed.

Lemma count_braces (s : string) :
  count (braces s) LBRACE = count s LBRACE /\ count (braces s) RBRACE = count s RBRACE.
Proof.
  induction s as [|c s [IH1 IH2]]; [now split|].
  rewrite braces_cons. cbn [count].
  destruct (Ascii.eqb c LBRACE) eqn:E1; destruct (Ascii.eqb c RBRACE) eqn:E2;
    cbn [orb count]; rewrite ?E1, ?E2, ?IH1, ?IH2; now split.
Qed.

Lemma never_negative_braces (s : string) (depth : Z) :
  never_negative (braces s) depth = never_negative s depth.
Proof.
  revert depth; induction s as [|c s IH]; intros depth; [reflexivity|].
  rewrite braces_cons. cbn [never_negative].
  destruct (Ascii.eqb c LBRACE) eqn:E1; cbn [orb never_negative].
  - rewrite E1. apply IH.
  - destruct (Ascii.eqb c RBRACE) eqn:E2; cbn [never_negative].
    + rewrite E1, E2, IH. reflexivity.
    + apply IH.
Qed.

Lemma brace_depth_cons (c : ascii) (s : string) :
  brace_depth (String c s) =
  (if Ascii.eqb c LBRACE then 1 else 0) - (if Ascii.eqb c RBRACE then 1 else 0)
  + brace_depth s.
Proof. unfold brace_depth. cbn [count]. lia. Qed.

Lemma lbrace_not_rbrace (c : ascii) :
  Ascii.eqb c LBRACE = true -> Ascii.eqb c RBRACE = false.
Proof. intros H. apply Ascii.eqb_eq in H. now subst. Qed.

Lemma never_negative_take (s : string) (depth : Z) :
  never_negative s depth = true -> 0 <= depth ->
  forall n, 0 <= depth + brace_depth (take n s).
Proof.
  revert depth; induction s as [|c s IH]; intros depth H Hd n.
  - destruct n; cbn; lia.
  - destruct n as [|n]; [cbn; lia|]. cbn [take]. rewrite brace_depth_cons.
    cbn [never_negative] in H. destruct (Ascii.eqb c LBRACE) eqn:E1.
    + rewrite (lbrace_not_rbrace c E1).
      specialize (IH (depth + 1) H ltac:(lia) n). lia.
    + destruct (Ascii.eqb c RBRACE) eqn:E2.
      * apply andb_prop in H as [H1 H2]. apply Z.leb_le in H1.
        specialize (IH (depth - 1) H2 H1 n). lia.
      * specialize (IH depth H Hd n). lia.
Qed.

Lemma first_object_depth (s o : string) (depth : Z) :
  1 <= depth -> first_object s depth = Some o ->
  never_negative o depth = true /\ depth + brace_depth o = 0.
Proof.
  revert o depth; induction s as [|c s IH]; intros o depth Hd H; [discriminate|].
  cbn [first_object] in H.
  assert (step : forall d, 1 <= d ->
            option_map (String c) (first_object s d) = Some o ->
            exists o', o = String c o' /\ never_negative o' d = true /\
                       d + brace_depth o' = 0).
  { intros d Hd' Ho. destruct (first_object s d) as [o'|] eqn:E; [|discriminate].
    injection Ho as <-. exists o'. split; [reflexivity|]. now apply IH. }
  destruct (Ascii.eqb c LBRACE) eqn:E1.
  - destruct (step (depth + 1) ltac:(lia) H) as [o' [-> [H1 H2]]].
    rewrite brace_depth_cons. cbn [never_negative].
    rewrite E1, (lbrace_not_rbrace c E1). split; [exact H1|lia].
  - destruct (Ascii.eqb c RBRACE) eqn:E2.
    + destruct (depth - 1 =? 0) eqn:E3.
      * injection H as <-. apply Z.eqb_eq in E3.
        cbn [never_negative]. rewrite E1, E2. unfold brace_depth. cbn [count].
        rewrite E1, E2. split; [|lia].
        apply andb_true_intro. split; [apply Z.leb_le; lia|reflexivity].
      * apply Z.eqb_neq in E3.
        destruct (step (depth - 1) ltac:(lia) H) as [o' [-> [H1 H2]]].
        rewrite brace_depth_cons. cbn [never_negative]. rewrite E1, E2.
        split; [|lia]. apply andb_true_intro.
        split; [apply Z.leb_le; lia|exact H1].
    + destruct (step depth Hd H) as [o' [-> [H1 H2]]].
      rewrite brace_depth_cons. cbn [never_negative]. rewrite E1, E2.
      split; [exact H1|lia].
Qed.

Lemma from_first_brace_head (x : string) :
  from_first_brace x = EmptyString \/
  exists s, from_first_brace x = String LBRACE s.
Proof.
  induction x as [|c x IH]; [now left|]. cbn [from_first_brace].
  destruct (Ascii.eqb c LBRACE) eqn:E; [|exact IH].
  apply Ascii.eqb_eq in E. subst. right. now exists x.
Qed.

(** An extracted object opens with a brace, never goes below depth zero
    and closes every brace it opens. *)
Lemma extracted_object_shape (x o : string) :
  first_object (from_first_brace x) 0 = Some o ->
  (exists o', o = String LBRACE o') /\
  never_negative o 0 = true /\ brace_depth o = 0.
Proof.
  intros H. destruct (from_first_brace_head x) as [E|[s E]]; rewrite E in H;
    [discriminate|].
  cbn [first_object] in H. change (Ascii.eqb LBRACE LBRACE) with true in H.
  destruct (first_object s (0 + 1)) as [o'|] eqn:F; [|discriminate].
  injection H as <-. destruct (first_object_depth s o' 1 ltac:(lia) F) as [H1 H2].
  split; [now exists o'|]. rewrite brace_depth_cons. cbn [never_negative].
  change (Ascii.eqb LBRACE LBRACE) with true.
  change (Ascii.eqb LBRACE RBRACE) with false. split; [exact H1|lia].
Qed.

(** The last occurrence of a character: what comes before it holds one
    occurrence less, what comes after it none. *)
Lemma rfind_from_spec (s : string) (c : ascii) (i : Z) :
  0 <= i ->
  (rfind_from s c i = -1 /\ count s c = 0) \/
  (exists n, rfind_from s c i = i + Z.of_nat n /\ (n < String.length s)%nat /\
             count (take n s) c = count s c - 1 /\
             drop n s = String c (drop (S n) s) /\
             count (drop (S n) s) c = 0).
Proof.
  revert i; induction s as [|a s IH]; intros i Hi; [now left|].
  cbn [rfind_from].
  destruct (IH (i + 1) ltac:(lia)) as [[H1 H2]|[n [H1 [H2 [H3 [H4 H5]]]]]].
  - rewrite H1. cbn [Z.leb Z.compare]. cbn [count]. rewrite H2.
    destruct (Ascii.eqb a c) eqn:E.
    + right. exists 0%nat. apply Ascii.eqb_eq in E. subst a.
      cbn [take drop count String.length].
      split; [lia|]. split; [lia|]. split; [lia|]. split; [reflexivity|exact H2].
    + left. split; [reflexivity|lia].
  - right. exists (S n). rewrite H1.
    replace (0 <=? i + 1 + Z.of_nat n) with true by (symmetry; apply Z.leb_le; lia).
    cbn [take drop count String.length].
    split; [lia|]. split; [lia|]. split; [lia|]. split; assumption.
Qed.

Lemma slice_to_rfind (s : string) (c : ascii) :
  0 < count s c ->
  exists n, slice_to s (rfind s c) = take n s /\
            count (take n s) c = count s c - 1.
Proof.
  intros H. unfold rfind.
  destruct (rfind_from_spec s c 0 ltac:(lia)) as [[_ H0]|[n [H1 [H2 [H3 _]]]]]; [lia|].
  exists n. split; [|exact H3]. rewrite H1. unfold slice_to, clamp, len.
  replace (0 + Z.of_nat n <? 0) with false by (symmetry; apply Z.ltb_ge; lia).
  f_equal. lia.
Qed.

Lemma brace_depth_of_braces (s : string) : brace_depth (braces s) = brace_depth s.
Proof. unfold brace_depth. destruct (count_braces s) as [-> ->]. reflexivity. Qed.

(** What the two line-break replacements do to an extracted object. *)
Lemma line_breaks_removed (o : string) :
  let o1 := replace (replace o NL " ") (String CR EmptyString) EmptyString in
  braces o1 = braces o /\ count o1 LF = 0 /\ count o1 CR = 0 /\
  count o1 DQUOTE = count o DQUOTE.
Proof.
  cbv zeta. split; [|split; [|split]].
  - rewrite !braces_replace by (reflexivity || discriminate). reflexivity.
  - rewrite (count_replace_char _ EmptyString CR LF eq_refl). cbn [Ascii.eqb].
    change (Ascii.eqb CR LF) with false. cbv iota.
    unfold NL. rewrite (count_replace_char o " " LF LF eq_refl).
    now rewrite Ascii.eqb_refl.
  - rewrite (count_replace_char _ EmptyString CR CR eq_refl).
    now rewrite Ascii.eqb_refl.
  - rewrite (count_replace_char _ EmptyString CR DQUOTE eq_refl).
    change (Ascii.eqb CR DQUOTE) with false. cbv iota.
    unfold NL. rewrite (count_replace_char o " " LF DQUOTE eq_refl).
    reflexivity.
Qed.

(** X2. Whatever the reply, the text the parser hands to [json.loads] (the
    repaired object [t] below) has as many closing as opening braces,
    holds no line feed and no carriage return, and has an even number of
    double quotes. *)
Theorem decoder_input_well_formed
    (json_loads : string -> option json) (content o : string) :
  first_object (from_first_brace (GPTService.clean_content content)) 0 = Some o ->
  let t := GPTService.repair_json o in
  GPTService.extract_data json_loads content =
    (data <- GPTService.loads json_loads t ;; Return (Some data)) /\
  count t LBRACE = count t RBRACE /\
  count t LF = 0 /\ count t CR = 0 /\
  count t DQUOTE mod 2 = 0.
Proof.
  intros H. cbv zeta. split; [now apply extract_data_some|].
  destruct (extracted_object_shape _ o H) as [_ [Hnn Hbal]].
  unfold GPTService.repair_json.
  destruct (line_breaks_removed o) as [Hb [Hlf [Hcr Hq]]].
  set (o1 := replace (replace o NL " ") (String CR EmptyString) EmptyString) in *.
  destruct (count o1 DQUOTE mod 2 =? 0) eqn:Ev; cbn [negb].
  - apply Z.eqb_eq in Ev. split; [|now repeat split].
    pose proof (brace_depth_of_braces o1) as E. rewrite Hb, brace_depth_of_braces in E.
    unfold brace_depth in *. lia.
  - apply Z.eqb_neq in Ev.
    assert (Hpos : 0 < count o1 DQUOTE).
    { pose proof (count_nonneg o1 DQUOTE).
      destruct (Z.eq_dec (count o1 DQUOTE) 0) as [E|E]; [rewrite E in Ev; now cbn in Ev|lia]. }
    destruct (slice_to_rfind o1 DQUOTE Hpos) as [n [Hs Hc]]. rewrite Hs.
    assert (Hk : 0 <= brace_depth (take n o1)).
    { rewrite <- never_negative_braces, <- Hb, never_negative_braces in Hnn.
      pose proof (never_negative_take o1 0 Hnn ltac:(lia) n). lia. }
    unfold brace_depth in Hk.
    rewrite !count_app, !count_repeat.
    change (Ascii.eqb RBRACE LBRACE) with false.
    change (Ascii.eqb RBRACE RBRACE) with true.
    change (Ascii.eqb RBRACE LF) with false.
    change (Ascii.eqb RBRACE CR) with false.
    change (Ascii.eqb RBRACE DQUOTE) with false. cbv iota.
    pose proof (count_take_le n o1 LF). pose proof (count_nonneg (take n o1) LF).
    pose proof (count_take_le n o1 CR). pose proof (count_nonneg (take n o1) CR).
    split; [lia|]. split; [lia|]. split; [lia|].
    rewrite Hc, Z.add_0_r.
    pose proof (Z.mod_pos_bound (count o1 DQUOTE) 2 ltac:(lia)).
    assert (Hodd : count o1 DQUOTE mod 2 = 1) by lia.
    rewrite (Z.div_mod (count o1 DQUOTE) 2) by lia. rewrite Hodd.
    replace (2 * (count o1 DQUOTE / 2) + 1 - 1) with ((count o1 DQUOTE / 2) * 2) by lia.
    apply Z.mod_mul. lia.
Qed.

Lemma decoder_input_well_formed_witness :
  let t := GPTService.repair_json (dq "{'a': {'b': 1}, 'c': '}") in
  GPTService.extract_data JsonSubset.loads
    (dq "Here you go: {'a': {'b': 1}, 'c': '} and more") =
    (data <- GPTService.loads JsonSubset.loads t ;; Return (Some data)) /\
  count t LBRACE = count t RBRACE /\
  count t LF = 0 /\ count t CR = 0 /\
  count t DQUOTE mod 2 = 0.
Proof.
  apply (decoder_input_well_formed JsonSubset.loads
           (dq "Here you go: {'a': {'b': 1}, 'c': '} and more")
           (dq "{'a': {'b': 1}, 'c': '}")).
  vm_compute. reflexivity.
Defined.

(** ** Replies without markdown *)

Lemma replace_absent (s old' new : string) (a : ascii) :
  count s a = 0 -> replace s (String a old') new = s.
Proof.
  unfold replace. induction s as [|c s IH]; intros H; [reflexivity|].
  cbn [count] in H. pose proof (count_nonneg s a).
  destruct (Ascii.eqb c a) eqn:E; [lia|].
  cbn [replace_from String.prefix].
  destruct (Ascii.ascii_dec a c) as [->|ne]; [now rewrite Ascii.eqb_refl in E|].
  rewrite IH by lia. reflexivity.
Qed.

(** The four replacements of the clean-up leave alone a text that holds
    neither a backtick nor an asterisk. *)
Lemma markers_absent (s : string) :
  count s BACKTICK = 0 -> count s ASTERISK = 0 ->
  replace (replace (replace (replace s "```json" EmptyString) "```" EmptyString)
             "**STEP 1 - TASTE ANALYSIS:**" EmptyString)
    "**STEP 2 - BOOK RECOMMENDATIONS:**" EmptyString = s.
Proof.
  intros Hb Ha.
  change "```json" with (String BACKTICK "``json").
  change "```" with (String BACKTICK "``").
  change "**STEP 1 - TASTE ANALYSIS:**"
    with (String ASTERISK "*STEP 1 - TASTE ANALYSIS:**").
  change "**STEP 2 - BOOK RECOMMENDATIONS:**"
    with (String ASTERISK "*STEP 2 - BOOK RECOMMENDATIONS:**").
  rewrite (replace_absent s _ _ BACKTICK Hb).
  rewrite (replace_absent s _ _ BACKTICK Hb).
  rewrite (replace_absent s _ _ ASTERISK Ha).
  now rewrite (replace_absent s _ _ ASTERISK Ha).
Qed.

(** X3. On a reply without backticks and without asterisks the clean-up
    does nothing but strip the surrounding white space. *)
Theorem clean_content_without_markdown (content : string) :
  count (strip content) BACKTICK = 0 ->
  count (strip content) ASTERISK = 0 ->
  GPTService.clean_content content = strip content.
Proof.
  intros Hb Ha. unfold GPTService.clean_content.
  set (s := strip content) in *. cbv zeta.
  now apply markers_absent.
Qed.

Lemma clean_content_without_markdown_witness :
  GPTService.clean_content (dq "  {'a': 1}
") = dq "{'a': 1}".
Proof.
  apply (clean_content_without_markdown (dq "  {'a': 1}
")); vm_compute; reflexivity.
Defined.

(** X4. A reply that is, white space around it apart, one complete object
    on a single line, with an even number of double quotes and without
    backticks or asterisks, reaches [json.loads] unchanged. *)
Theorem plain_object_reaches_decoder
    (json_loads : string -> option json) (content o' : string) :
  let o := String LBRACE o' in
  strip content = o ->
  first_object o 0 = Some o ->
  count o BACKTICK = 0 -> count o ASTERISK = 0 ->
  count o LF = 0 -> count o CR = 0 ->
  count o DQUOTE mod 2 = 0 ->
  GPTService.extract_data json_loads content =
  (data <- GPTService.loads json_loads o ;; Return (Some data)).
Proof.
  intros o Hs Ho Hb Ha Hlf Hcr Hq.
  assert (Hc : GPTService.clean_content content = o).
  { unfold GPTService.clean_content. rewrite Hs. now apply markers_absent. }
  assert (Hr : GPTService.repair_json o = o).
  { unfold GPTService.repair_json, NL.
    rewrite (replace_absent o _ _ LF Hlf).
    rewrite (replace_absent o _ _ CR Hcr).
    now rewrite Hq. }
  rewrite (extract_data_some json_loads content o); [now rewrite Hr|].
  rewrite Hc. exact Ho.
Qed.

Lemma plain_object_reaches_decoder_witness :
  GPTService.extract_data JsonSubset.loads
    (dq "  {'unified_recommendations': [{'title': 'Dune'}]} ") =
  (data <- GPTService.loads JsonSubset.loads
             (dq "{'unified_recommendations': [{'title': 'Dune'}]}") ;;
   Return (Some data)).
Proof.
  apply (plain_object_reaches_decoder JsonSubset.loads
           (dq "  {'unified_recommendations': [{'title': 'Dune'}]} ")
           (dq "'unified_recommendations': [{'title': 'Dune'}]}"));
    vm_compute; reflexivity.
Defined.

(** ** The books of a reply *)

Lemma init_book_fields (t a r m p : json) (b : BookRecommendation) :
  BookRecommendation_init t a r m p = Return b ->
  t = JStr (title b) /\ a = JStr (author b) /\ r = JStr (reason b).
Proof.
  unfold BookRecommendation_init. intros H.
  destruct t; try discriminate. destruct a; try discriminate.
  destruct r; try discriminate. cbn [as_str bind] in H.
  destruct (as_optional as_float m); try discriminate. cbn [bind] in H.
  destruct (as_optional as_str p); try discriminate. cbn [bind] in H.
  injection H as <-. now repeat split.
Qed.

Lemma truthy_str (s : string) :
  truthy (JStr s) = true -> String.eqb s EmptyString = false.
Proof. cbn [truthy]. now destruct (String.eqb s EmptyString). Qed.

Lemma collect_books_named (entries : list json) (acc out : list BookRecommendation) :
  forallb book_named acc = true ->
  GPTService.collect_books entries acc = Return out ->
  forallb book_named out = true.
Proof.
  revert acc; induction entries as [|e entries IH]; intros acc Hacc H.
  - cbn in H. now injection H as <-.
  - cbn [GPTService.collect_books] in H.
    destruct (as_dict e) as [d|]; [|discriminate]. cbn [bind] in H.
    destruct (truthy (dict_get d "title" JNull)) eqn:Tt; cbn [negb orb] in H;
      [|now apply (IH acc)].
    destruct (truthy (dict_get d "author" JNull)) eqn:Ta; cbn [negb] in H;
      [|now apply (IH acc)].
    destruct (BookRecommendation_init _ _ _ _ _) as [b|] eqn:Eb; [|discriminate].
    cbn [bind] in H. apply (IH (append1 acc b)); [|exact H].
    unfold append1. rewrite forallb_app, Hacc. cbn [forallb andb].
    destruct (init_book_fields _ _ _ _ _ b Eb) as [Ht [Ha _]].
    rewrite Ht in Tt. rewrite Ha in Ta. unfold book_named.
    now rewrite (truthy_str _ Tt), (truthy_str _ Ta).
Qed.

Lemma fallback_response_named (movies : list string)
    (out : list RecommendationResponse) (r : RecommendationResponse) :
  GPTService._create_fallback_response movies = Return out ->
  In r out -> forallb book_named (books r) = true.
Proof.
  unfold GPTService._create_fallback_response.
  destruct (GPTService._create_movie_summary movies (JDict [])); [|discriminate].
  cbn [bind]. intros H. injection H as <-. intros [<-|[]]. reflexivity.
Qed.

Lemma build_response_named (data : json) (movies : list string)
    (out : list RecommendationResponse) (r : RecommendationResponse) :
  GPTService.build_response data movies = Return out ->
  In r out -> forallb book_named (books r) = true.
Proof.
  unfold GPTService.build_response.
  destruct (GPTService.contains data _) as [has|]; [|discriminate]. cbn [bind].
  destruct has; cbn [negb]; [|apply fallback_response_named].
  destruct (as_dict data) as [d|]; [|discriminate]. cbn [bind].
  destruct (py_iter _) as [entries|]; [|discriminate]. cbn [bind].
  destruct (GPTService.collect_books entries []) as [ub|] eqn:Ec; [|discriminate].
  cbn [bind]. destruct ub as [|b ub]; [apply fallback_response_named|].
  destruct (as_dict _) as [tpd|]; [|discriminate]. cbn [bind].
  destruct (GPTService.build_taste_profile tpd); [|discriminate]. cbn [bind].
  destruct (GPTService._create_movie_summary movies _); [|discriminate]. cbn [bind].
  intros H. injection H as <-. intros [<-|[]]. cbn [books].
  now apply (collect_books_named entries [] (b :: ub) eq_refl).
Qed.

Lemma parse_response_named (json_loads : string -> option json)
    (content : option string) (movies : list string)
    (out : list RecommendationResponse) (r : RecommendationResponse) :
  GPTService._parse_unified_response json_loads content movies = Return out ->
  In r out -> forallb book_named (books r) = true.
Proof.
  unfold GPTService._parse_unified_response.
  destruct (GPTService.parse_body json_loads content movies) as [res|e] eqn:E.
  - intros H. injection H as <-. revert E. unfold GPTService.parse_body.
    destruct content as [c|]; [|discriminate].
    destruct (GPTService.extract_data json_loads c) as [[data|]|]; cbn [bind];
      [apply build_response_named|apply fallback_response_named|discriminate].
  - destruct e; apply fallback_response_named.
Qed.

(** X5. Every book of every response the generator returns has a title
    and an author that are not empty, whether it comes from the reply or
    from the fallback. *)
Theorem returned_books_are_named
    (settings : Settings) (json_loads : string -> option json)
    (client : ChatRequest -> Completion)
    (movies : list string) (preferences : option UserPreferences)
    (out : list RecommendationResponse) (r : RecommendationResponse) :
  GPTService.generate_recommendations settings json_loads client movies preferences
    = Return out ->
  In r out ->
  forallb book_named (books r) = true.
Proof.
  unfold GPTService.generate_recommendations.
  destruct (client _) as [e|content]; [apply fallback_response_named|].
  destruct (GPTService._parse_unified_response json_loads content movies) eqn:E.
  - intros H. injection H as <-. now apply (parse_response_named _ _ _ _ r E).
  - apply fallback_response_named.
Qed.

Lemma returned_books_are_named_witness :
  forallb book_named (books two_books_response) = true.
Proof.
  apply (returned_books_are_named demo_settings JsonSubset.loads
           (replying (Content (Some reply_with_three_entries)))
           ["Inception"] None [two_books_response] two_books_response).
  - vm_compute. reflexivity.
  - left. reflexivity.
Defined.

(** X6. The loop over the entries only appends: the books it returns are
    the books it started with followed by at most one book per entry. *)
Theorem collect_books_appends (entries : list json)
    (acc out : list BookRecommendation) :
  GPTService.collect_books entries acc = Return out ->
  exists new, out = (acc ++ new)%list /\ (length new <= length entries)%nat.
Proof.
  revert acc; induction entries as [|e entries IH]; intros acc H.
  - cbn in H. injection H as <-. exists []. split; [now rewrite app_nil_r|cbn; lia].
  - cbn [GPTService.collect_books] in H.
    destruct (as_dict e) as [d|]; [|discriminate]. cbn [bind] in H.
    destruct (negb (truthy (dict_get d "title" JNull))
              || negb (truthy (dict_get d "author" JNull))).
    + destruct (IH acc H) as [new [-> Hl]]. exists new. split; [reflexivity|cbn; lia].
    + destruct (BookRecommendation_init _ _ _ _ _) as [b|]; [|discriminate].
      cbn [bind] in H. destruct (IH _ H) as [new [-> Hl]].
      exists (b :: new). unfold append1. rewrite <- app_assoc.
      split; [reflexivity|cbn; lia].
Qed.

Lemma collect_books_appends_witness :
  exists new, two_books = ([] ++ new)%list /\ (length new <= 3)%nat.
Proof.
  apply (collect_books_appends
           [ JDict [("title", JStr "Dune"); ("author", JStr "Frank Herbert")];
             JDict [("title", JStr EmptyString); ("author", JStr "Nobody")];
             JDict [("title", JStr "Solaris"); ("author", JStr "Stanislaw Lem");
                    ("reason", JStr "quiet dread")] ]
           [] two_books).
  reflexivity.
Defined.

(** X7. An entry whose title or author is there but counts as false for
    Python (null, false, zero, the empty string, an empty list or an empty
    object) is passed over like a missing one. *)
Theorem falsy_title_or_author_is_skipped
    (d : list (string * json)) (v : json) (rest : list json)
    (acc : list BookRecommendation) :
  In v falsy_values ->
  dict_lookup d "title" = Some v \/ dict_lookup d "author" = Some v ->
  GPTService.collect_books (JDict d :: rest) acc = GPTService.collect_books rest acc.
Proof.
  intros Hv H. cbn [GPTService.collect_books as_dict bind].
  assert (F : truthy v = false).
  { cbn in Hv. repeat (destruct Hv as [<-|Hv]; [reflexivity|]). destruct Hv. }
  unfold dict_get. destruct H as [H|H]; rewrite H, F; cbn [negb orb];
    [reflexivity|now rewrite orb_true_r].
Qed.

Lemma falsy_title_or_author_is_skipped_witness :
  GPTService.collect_books
    [JDict [("title", JNull); ("author", JStr "Nobody")]] [] = Return [].
Proof.
  apply (falsy_title_or_author_is_skipped
           [("title", JNull); ("author", JStr "Nobody")] JNull [] []).
  - left. reflexivity.
  - left. reflexivity.
Defined.

(** X8. An entry with a title and an author and nothing else becomes a
    book with the empty reason, no match score and no appeal. *)
Theorem missing_book_fields_default
    (d : list (string * json)) (t a : string) (rest : list json)
    (acc : list BookRecommendation) :
  dict_lookup d "title" = Some (JStr t) -> t <> EmptyString ->
  dict_lookup d "author" = Some (JStr a) -> a <> EmptyString ->
  dict_lookup d "reason" = None ->
  dict_lookup d "taste_match_score" = None ->
  dict_lookup d "primary_appeal" = None ->
  GPTService.collect_books (JDict d :: rest) acc =
  GPTService.collect_books rest
    (acc ++ [ {| title := t; author := a; reason := EmptyString;
                 taste_match_score := None; primary_appeal := None |} ])%list.
Proof.
  intros Ht Hte Ha Hae Hr Hm Hp. cbn [GPTService.collect_books as_dict bind].
  unfold dict_get. rewrite Ht, Ha, Hr, Hm, Hp. cbn [truthy].
  apply String.eqb_neq in Hte, Hae. rewrite Hte, Hae. reflexivity.
Qed.

Lemma missing_book_fields_default_witness :
  GPTService.collect_books
    [JDict [("title", JStr "Dune"); ("author", JStr "Frank Herbert")]] [] =
  Return [ {| title := "Dune"; author := "Frank Herbert"; reason := EmptyString;
              taste_match_score := None; primary_appeal := None |} ].
Proof.
  apply (missing_book_fields_default
           [("title", JStr "Dune"); ("author", JStr "Frank Herbert")]
           "Dune" "Frank Herbert" [] []); try reflexivity; discriminate.
Defined.

(** ** Replies that decode but are not shaped as asked *)

Lemma parse_of_extracted (json_loads : string -> option json)
    (content : string) (movies : list string) (data : json) :
  GPTService.extract_data json_loads content = Return (Some data) ->
  GPTService._parse_unified_response json_loads (Some content) movies =
  match GPTService.build_response data movies with
  | Return r => Return r
  | Raise _ => GPTService._create_fallback_response movies
  end.
Proof.
  intros H. unfold GPTService._parse_unified_response, GPTService.parse_body.
  rewrite H. cbn [bind].
  destruct (GPTService.build_response data movies) as [r|e]; [reflexivity|].
  now destruct e.
Qed.

Lemma collect_books_non_object (entries : list json) (acc : list BookRecommendation) :
  existsb (fun e => negb (is_object e)) entries = true ->
  raises (GPTService.collect_books entries acc) = true.
Proof.
  revert acc; induction entries as [|e entries IH]; intros acc H; [discriminate|].
  cbn [existsb] in H. cbn [GPTService.collect_books].
  destruct e as [| | | | |d]; try reflexivity.
  cbn [is_object negb orb] in H. cbn [as_dict bind].
  destruct (negb _ || negb _); [now apply IH|].
  destruct (BookRecommendation_init _ _ _ _ _); [|reflexivity].
  cbn [bind]. now apply IH.
Qed.

Lemma handler_of_failed (movies : list string)
    (r : result (list RecommendationResponse)) :
  raises r = true \/ r = GPTService._create_fallback_response movies ->
  match r with
  | Return x => Return x
  | Raise _ => GPTService._create_fallback_response movies
  end = GPTService._create_fallback_response movies.
Proof.
  intros [H| ->].
  - destruct r; [discriminate|reflexivity].
  - now destruct (GPTService._create_fallback_response movies).
Qed.

(** X9. One entry that is not an object spoils the whole array: the
    attribute error it causes sends the parser to the fallback, whatever
    the other entries hold. *)
Theorem non_object_entry_routes_to_fallback
    (json_loads : string -> option json) (content : string) (movies : list string)
    (d : list (string * json)) (entries : list json) :
  GPTService.extract_data json_loads content = Return (Some (JDict d)) ->
  dict_lookup d "unified_recommendations" = Some (JList entries) ->
  existsb (fun e => negb (is_object e)) entries = true ->
  GPTService._parse_unified_response json_loads (Some content) movies =
  GPTService._create_fallback_response movies.
Proof.
  intros Hx Hl He. rewrite (parse_of_extracted _ _ _ _ Hx).
  apply handler_of_failed. left. unfold GPTService.build_response.
  cbn [GPTService.contains bind as_dict]. unfold dict_has, dict_get.
  rewrite Hl. cbn [negb py_iter bind].
  pose proof (collect_books_non_object entries [] He) as Hr.
  now destruct (GPTService.collect_books entries []).
Qed.

(** X10. A [taste_profile] that is present but is not an object (null, a
    string, a number, a list) sends the parser to the fallback, even when
    the books of the reply are fine. *)
Theorem non_object_profile_routes_to_fallback
    (json_loads : string -> option json) (content : string) (movies : list string)
    (d : list (string * json)) (v : json) :
  GPTService.extract_data json_loads content = Return (Some (JDict d)) ->
  dict_lookup d "taste_profile" = Some v ->
  is_object v = false ->
  GPTService._parse_unified_response json_loads (Some content) movies =
  GPTService._create_fallback_response movies.
Proof.
  intros Hx Hl Hv. rewrite (parse_of_extracted _ _ _ _ Hx).
  apply handler_of_failed. unfold GPTService.build_response.
  cbn [GPTService.contains bind as_dict].
  destruct (dict_has d "unified_recommendations"); cbn [negb]; [|now right].
  destruct (py_iter _) as [entries|]; [|now left]. cbn [bind].
  destruct (GPTService.collect_books entries []) as [ub|]; [|now left].
  cbn [bind]. destruct ub; [now right|]. left.
  unfold dict_get. rewrite Hl. now destruct v.
Qed.

Lemma collect_books_strings (l : list string) (acc : list BookRecommendation) :
  l <> [] -> raises (GPTService.collect_books (map JStr l) acc) = true.
Proof. destruct l; [congruence|reflexivity]. Qed.

(** X11. When the decoded value is not an object, or has no
    [unified_recommendations], or holds under that key anything but a
    list, the parser answers with the fallback. *)
Theorem misshapen_reply_routes_to_fallback
    (json_loads : string -> option json) (content : string) (movies : list string)
    (data : json) :
  GPTService.extract_data json_loads content = Return (Some data) ->
  is_object data = false \/
  (exists d, data = JDict d /\
     (dict_lookup d "unified_recommendations" = None \/
      exists v, dict_lookup d "unified_recommendations" = Some v /\
                is_list v = false)) ->
  GPTService._parse_unified_response json_loads (Some content) movies =
  GPTService._create_fallback_response movies.
Proof.
  intros Hx H. rewrite (parse_of_extracted _ _ _ _ Hx).
  apply handler_of_failed. unfold GPTService.build_response.
  destruct H as [H|[d [-> [H|[v [Hl Hv]]]]]].
  - destruct data as [| | |s|l|d]; try (now left).
    + cbn [GPTService.contains bind]. destruct (match String.index _ _ _ with
        Some _ => true | None => false end); cbn [negb]; [now left|now right].
    + cbn [GPTService.contains bind]. destruct (existsb _ l); cbn [negb];
        [now left|now right].
  - cbn [GPTService.contains bind]. unfold dict_has. rewrite H. now right.
  - cbn [GPTService.contains bind as_dict]. unfold dict_has, dict_get.
    rewrite Hl. cbn [negb].
    destruct v as [| | |s|l|items]; try (now left).
    + cbn [py_iter bind]. destruct (list_ascii_of_string s) as [|c l]; [now right|now left].
    + cbn [py_iter bind]. destruct items as [|[k x] items]; [now right|now left].
Qed.

(** X12. A reply without content ([None]) and a reply whose extracted
    object the decoder rejects are both answered with the fallback. *)
Theorem undecodable_reply_routes_to_fallback
    (json_loads : string -> option json) (content o : string) (movies : list string) :
  GPTService._parse_unified_response json_loads None movies =
  GPTService._create_fallback_response movies /\
  (first_object (from_first_brace (GPTService.clean_content content)) 0 = Some o ->
   json_loads (GPTService.repair_json o) = None ->
   GPTService._parse_unified_response json_loads (Some content) movies =
   GPTService._create_fallback_response movies).
Proof.
  split; [reflexivity|]. intros Ho Hd.
  unfold GPTService._parse_unified_response, GPTService.parse_body.
  rewrite (extract_data_some json_loads content o Ho).
  unfold GPTService.loads. rewrite Hd. reflexivity.
Qed.

Lemma non_object_entry_routes_to_fallback_witness :
  GPTService._parse_unified_response JsonSubset.loads
    (Some reply_with_string_entry) ["Inception"] =
  GPTService._create_fallback_response ["Inception"].
Proof.
  eapply (non_object_entry_routes_to_fallback JsonSubset.loads
            reply_with_string_entry ["Inception"]).
  - vm_compute. reflexivity.
  - reflexivity.
  - reflexivity.
Defined.

Lemma non_object_profile_routes_to_fallback_witness :
  GPTService._parse_unified_response JsonSubset.loads
    (Some reply_with_null_profile) ["Inception"] =
  GPTService._create_fallback_response ["Inception"].
Proof.
  eapply (non_object_profile_routes_to_fallback JsonSubset.loads
            reply_with_null_profile ["Inception"]).
  - vm_compute. reflexivity.
  - reflexivity.
  - reflexivity.
Defined.

Lemma misshapen_reply_routes_to_fallback_witness :
  GPTService._parse_unified_response JsonSubset.loads
    (Some reply_with_books_as_text) ["Inception"] =
  GPTService._create_fallback_response ["Inception"].
Proof.
  eapply (misshapen_reply_routes_to_fallback JsonSubset.loads
            reply_with_books_as_text ["Inception"]).
  - vm_compute. reflexivity.
  - right. eexists. split; [reflexivity|]. right. eexists. split; reflexivity.
Defined.

Lemma undecodable_reply_routes_to_fallback_witness :
  GPTService._parse_unified_response JsonSubset.loads
    (Some reply_undecodable) ["Inception"] =
  GPTService._create_fallback_response ["Inception"].
Proof.
  eapply (proj2 (undecodable_reply_routes_to_fallback JsonSubset.loads
                   reply_undecodable _ ["Inception"])).
  - vm_compute. reflexivity.
  - vm_compute. reflexivity.
Defined.

(** ** The generator and its parser *)

Lemma parse_raise_is_fallback (json_loads : string -> option json)
    (content : option string) (movies : list string) (e : exn) :
  GPTService._parse_unified_response json_loads content movies = Raise e ->
  GPTService._create_fallback_response movies = Raise e.
Proof.
  unfold GPTService._parse_unified_response.
  destruct (GPTService.parse_body json_loads content movies) as [r|e'];
    [discriminate|]. now destruct e'.
Qed.

(** X13. The handler of [generate_recommendations] only matters when the
    call itself fails: on a reply, the generator returns, or raises, just
    what [_parse_unified_response] does. *)
Theorem generate_is_parse_of_reply
    (settings : Settings) (json_loads : string -> option json)
    (client : ChatRequest -> Completion)
    (movies : list string) (preferences : option UserPreferences) :
  GPTService.generate_recommendations settings json_loads client movies preferences =
  match client (GPTService.generation_request settings
                  (GPTService._build_unified_prompt settings movies preferences)) with
  | Failed _ => GPTService._create_fallback_response movies
  | Content content => GPTService._parse_unified_response json_loads content movies
  end.
Proof.
  unfold GPTService.generate_recommendations.
  destruct (client _) as [e|content]; [reflexivity|].
  destruct (GPTService._parse_unified_response json_loads content movies) as [r|e] eqn:E;
    [reflexivity|]. now apply parse_raise_is_fallback in E.
Qed.

(** X14. The generator raises exactly when the movie list is empty. *)
Theorem generate_raises_iff_no_movies
    (settings : Settings) (json_loads : string -> option json)
    (client : ChatRequest -> Completion)
    (movies : list string) (preferences : option UserPreferences) :
  raises (GPTService.generate_recommendations settings json_loads client
            movies preferences) = true <-> movies = [].
Proof.
  unfold GPTService.generate_recommendations. split.
  - intros H. destruct movies as [|m movies]; [reflexivity|]. exfalso.
    assert (Hne : m :: movies <> []) by discriminate.
    destruct (usable_fallback _ Hne) as [rf [Hf _]].
    destruct (client _) as [e|content].
    + rewrite Hf in H. discriminate.
    + destruct (parse_usable json_loads content _ Hne) as [r [Hr _]].
      rewrite Hr in H. discriminate.
  - intros ->. destruct (client _) as [e|content]; [reflexivity|].
    now rewrite empty_list_parse_raises.
Qed.

(** ** The analyzer *)

Lemma drop_length_app (s t : string) : drop (String.length s) (s ++ t) = t.
Proof. induction s as [|c s IH]; [reflexivity|exact IH]. Qed.

Lemma length_app (s t : string) :
  String.length (s ++ t) = (String.length s + String.length t)%nat.
Proof. induction s as [|c s IH]; cbn [String.length append]; [reflexivity|now rewrite IH]. Qed.

Lemma find_from_none (s : string) (c : ascii) (i : Z) :
  count s c = 0 -> find_from s c i = -1.
Proof.
  revert i; induction s as [|a s IH]; intros i H; [reflexivity|].
  cbn [count find_from] in *. pose proof (count_nonneg s c).
  destruct (Ascii.eqb a c); [lia|]. apply IH. lia.
Qed.

Lemma find_from_app (pre rest : string) (c : ascii) (i : Z) :
  count pre c = 0 ->
  find_from (pre ++ String c rest) c i = i + len pre.
Proof.
  revert i; induction pre as [|a pre IH]; intros i H.
  - cbn [append find_from]. rewrite Ascii.eqb_refl. unfold len. cbn. lia.
  - cbn [count] in H. pose proof (count_nonneg pre c).
    cbn [append find_from]. destruct (Ascii.eqb a c); [lia|].
    rewrite IH by lia. unfold len. cbn [String.length]. lia.
Qed.

Lemma rfind_from_none (s : string) (c : ascii) (i : Z) :
  count s c = 0 -> rfind_from s c i = -1.
Proof.
  revert i; induction s as [|a s IH]; intros i H; [reflexivity|].
  cbn [count rfind_from] in *. pose proof (count_nonneg s c).
  destruct (Ascii.eqb a c); [lia|]. rewrite IH by lia. reflexivity.
Qed.

Lemma rfind_from_app (x post : string) (c : ascii) (i : Z) :
  0 <= i -> count post c = 0 ->
  rfind_from (x ++ String c post) c i = i + len x.
Proof.
  revert i; induction x as [|a x IH]; intros i Hi H.
  - cbn [append rfind_from]. rewrite (rfind_from_none post c (i + 1) H).
    cbn [Z.leb Z.compare]. rewrite Ascii.eqb_refl. unfold len. cbn. lia.
  - cbn [append rfind_from]. rewrite IH by lia.
    replace (0 <=? i + 1 + len x) with true
      by (symmetry; apply Z.leb_le; unfold len; lia).
    unfold len. cbn [String.length]. lia.
Qed.

(** The text between the first opening and the last closing brace. *)
Lemma analysis_slice (pre mid post : string) :
  count pre LBRACE = 0 -> count post RBRACE = 0 ->
  let content := pre ++ String LBRACE (mid ++ String RBRACE post) in
  slice content (find content LBRACE) (rfind content RBRACE + 1) =
  String LBRACE (mid ++ String RBRACE EmptyString).
Proof.
  intros Hpre Hpost content. subst content. unfold find, rfind.
  rewrite (find_from_app pre _ LBRACE 0 Hpre).
  replace (pre ++ String LBRACE (mid ++ String RBRACE post))
    with ((pre ++ String LBRACE mid) ++ String RBRACE post)
    by (rewrite append_assoc; reflexivity).
  rewrite (rfind_from_app _ post RBRACE 0 ltac:(lia) Hpost).
  unfold slice, clamp, len. rewrite !length_app. cbn [String.length].
  rewrite ?length_app. cbn [String.length].
  replace (0 + Z.of_nat (String.length pre) <? 0) with false
    by (symmetry; apply Z.ltb_ge; lia).
  replace (0 + Z.of_nat (String.length pre + S (String.length mid)) + 1 <? 0)
    with false by (symmetry; apply Z.ltb_ge; lia).
  match goal with |- take (Z.to_nat ?b) (drop (Z.to_nat ?a) _) = _ =>
    replace (Z.to_nat a) with (String.length pre) by lia;
    replace (Z.to_nat b) with (String.length (String LBRACE (mid ++ String RBRACE EmptyString)))
      by (cbn [String.length]; rewrite length_app; cbn [String.length]; lia)
  end.
  rewrite append_assoc. rewrite drop_length_app.
  replace (String LBRACE mid ++ String RBRACE post)
    with ((String LBRACE (mid ++ String RBRACE EmptyString)) ++ post).
  - apply take_app_length.
  - cbn [append]. rewrite append_assoc. reflexivity.
Qed.

(** X15. When the reply holds an opening brace and, after it, a closing
    brace, the analyzer decodes the text from the first opening brace to
    the last closing brace, both included, and returns the decoded value as
    it is, whatever its shape; if the decoder rejects that text the
    analyzer returns its fallback. *)
Theorem analyze_decodes_outer_braces
    (settings : Settings) (json_loads : string -> option json)
    (client : ChatRequest -> Completion)
    (movies : list string) (preferences : option UserPreferences)
    (pre mid post : string) :
  count pre LBRACE = 0 -> count post RBRACE = 0 ->
  client (GPTService.analysis_request settings (GPTService.analysis_prompt movies)) =
    Content (Some (pre ++ String LBRACE (mid ++ String RBRACE post))) ->
  GPTService.analyze_taste_profile settings json_loads client movies preferences =
  match json_loads (String LBRACE (mid ++ String RBRACE EmptyString)) with
  | Some v => Return v
  | None => Return GPTService.analysis_fallback
  end.
Proof.
  intros Hpre Hpost Hc.
  unfold GPTService.analyze_taste_profile, GPTService.analyze_body.
  rewrite Hc. rewrite (analysis_slice pre mid post Hpre Hpost).
  unfold GPTService.loads. now destruct (json_loads _).
Qed.

Lemma analyze_decodes_outer_braces_witness :
  GPTService.analyze_taste_profile demo_settings JsonSubset.loads
    (replying (Content (Some (dq "Sure: {'themes': ['loss'], 'confidence_score': 0.9} Done."))))
    ["Inception"] None =
  Return (JDict [("themes", JList [JStr "loss"]); ("confidence_score", JNum (9 # 10))]).
Proof.
  apply (analyze_decodes_outer_braces demo_settings JsonSubset.loads
           (replying (Content (Some (dq "Sure: {'themes': ['loss'], 'confidence_score': 0.9} Done."))))
           ["Inception"] None
           "Sure: " (dq "'themes': ['loss'], 'confidence_score': 0.9") " Done.");
    reflexivity.
Defined.

(** Without an opening brace [find] answers [-1], and the slice that
    starts at [-1] is the last character of the reply at most. *)
Lemma analysis_slice_without_brace (content : string) :
  count content LBRACE = 0 ->
  let json_str := slice content (find content LBRACE) (rfind content RBRACE + 1) in
  json_str = EmptyString \/ json_str = String RBRACE EmptyString.
Proof.
  intros H. cbv zeta. unfold find. rewrite (find_from_none content LBRACE 0 H).
  unfold rfind, slice.
  assert (Ha : clamp content (-1) = Z.max 0 (Z.of_nat (String.length content) - 1)).
  { unfold clamp, len. cbn [Z.ltb Z.compare]. lia. }
  rewrite Ha.
  destruct (rfind_from_spec content RBRACE 0 ltac:(lia))
    as [[H1 _]|[n [H1 [H2 [_ [H4 _]]]]]]; rewrite H1.
  - left. assert (Hb : clamp content (-1 + 1) = 0).
    { unfold clamp, len. cbn. lia. }
    rewrite Hb. replace (Z.to_nat (0 - _)) with 0%nat by lia.
    now destruct (drop _ content).
  - assert (Hb : clamp content (0 + Z.of_nat n + 1) = Z.of_nat n + 1).
    { unfold clamp, len.
      replace (0 + Z.of_nat n + 1 <? 0) with false by (symmetry; apply Z.ltb_ge; lia).
      lia. }
    rewrite Hb.
    destruct (Nat.eq_dec (S n) (String.length content)) as [E|E].
    + right. replace (Z.to_nat (Z.max _ _)) with n by lia.
      replace (Z.to_nat (_ - _)) with 1%nat by lia.
      rewrite H4. reflexivity.
    + left. replace (Z.to_nat (_ - _)) with 0%nat by lia.
      now destruct (drop _ content).
Qed.

(** X16. A reply without any opening brace never reaches the decoder with
    more than the empty string or a lone closing brace, so with a decoder
    that rejects these two the analyzer returns its fallback. *)
Theorem analyze_without_brace_is_fallback
    (settings : Settings) (json_loads : string -> option json)
    (client : ChatRequest -> Completion)
    (movies : list string) (preferences : option UserPreferences)
    (content : string) :
  json_loads EmptyString = None ->
  json_loads (String RBRACE EmptyString) = None ->
  count content LBRACE = 0 ->
  client (GPTService.analysis_request settings (GPTService.analysis_prompt movies)) =
    Content (Some content) ->
  GPTService.analyze_taste_profile settings json_loads client movies preferences =
  Return GPTService.analysis_fallback.
Proof.
  intros He Hb Hc Hr.
  unfold GPTService.analyze_taste_profile, GPTService.analyze_body.
  rewrite Hr. unfold GPTService.loads.
  destruct (analysis_slice_without_brace content Hc) as [-> | ->].
  - now rewrite He.
  - now rewrite Hb.
Qed.

Lemma analyze_without_brace_is_fallback_witness :
  GPTService.analyze_taste_profile demo_settings JsonSubset.loads
    (replying (Content (Some "themes: loss}"))) ["Inception"] None =
  Return GPTService.analysis_fallback.
Proof.
  apply (analyze_without_brace_is_fallback demo_settings JsonSubset.loads
           (replying (Content (Some "themes: loss}"))) ["Inception"] None
           "themes: loss}"); reflexivity.
Defined.


(** ** What the clean-up keeps *)

Lemma count_cons (a c : ascii) (s : string) :
  count (String a s) c = (if Ascii.eqb a c then 1 else 0) + count s c.
Proof. reflexivity. Qed.

Lemma count_replace_from (old new : string) (c : ascii) :
  old <> EmptyString -> count old c = 0 -> count new c = 0 ->
  forall s skip, count (take skip s) c = 0 ->
    count (replace_from old new s skip) c = count s c.
Proof.
  intros Hne Hold Hnew. induction s as [|a s IH]; intros skip Hskip.
  - reflexivity.
  - destruct skip as [|k].
    + cbn [replace_from].
      destruct (String.prefix old (String a s)) eqn:P.
      * apply prefix_split in P.
        destruct old as [|b old']; [congruence|].
        cbn [String.length drop append] in P. injection P as Hc Hs.
        rewrite count_cons in Hold. pose proof (count_nonneg old' c).
        destruct (Ascii.eqb b c) eqn:Eb; [lia|].
        rewrite count_app, Hnew. cbn [String.length].
        replace (S (String.length old') - 1)%nat with (String.length old') by lia.
        rewrite count_cons, Hc, Eb. rewrite IH; [lia|].
        rewrite Hs, take_app_length. lia.
      * rewrite !count_cons, (IH 0%nat eq_refl). reflexivity.
    + cbn [replace_from]. cbn [take] in Hskip. rewrite count_cons in *.
      pose proof (count_nonneg (take k s) c).
      destruct (Ascii.eqb a c); [lia|]. apply IH. lia.
Qed.

Lemma count_replace (s old new : string) (c : ascii) :
  old <> EmptyString -> count old c = 0 -> count new c = 0 ->
  count (replace s old new) c = count s c.
Proof. intros. unfold replace. now apply count_replace_from. Qed.

Lemma space_is_not (a c : ascii) :
  isspace a = true -> isspace c = false -> Ascii.eqb a c = false.
Proof.
  intros Ha Hc. destruct (Ascii.eqb a c) eqn:E; [|reflexivity].
  apply Ascii.eqb_eq in E. subst. congruence.
Qed.

Lemma count_lstrip (s : string) (c : ascii) :
  isspace c = false -> count (lstrip s) c = count s c.
Proof.
  intros Hc. induction s as [|a s IH]; [reflexivity|].
  cbn [lstrip]. destruct (isspace a) eqn:E; [|reflexivity].
  now rewrite count_cons, (space_is_not a c E Hc).
Qed.

Lemma count_rstrip (s : string) (c : ascii) :
  isspace c = false -> count (rstrip s) c = count s c.
Proof.
  intros Hc. induction s as [|a s IH]; [reflexivity|].
  cbn [rstrip]. rewrite (count_cons a c s), <- IH.
  destruct (rstrip s) as [|d r] eqn:R.
  - destruct (isspace a) eqn:E.
    + now rewrite (space_is_not a c E Hc).
    + now rewrite count_cons.
  - now rewrite (count_cons a c (String d r)).
Qed.

(** X17. The clean-up never adds or removes a character of the ASCII range
    that is neither white space nor a character of the three markers it
    deletes; in particular the braces, the brackets, the double quotes and
    the commas of the reply all survive it.  (The spaces of Unicode that
    [strip] takes off as well are written with bytes outside that range.) *)
Theorem clean_content_keeps (content : string) (c : ascii) :
  is_ascii c = true ->
  isspace c = false ->
  count "```json" c = 0 ->
  count "**STEP 1 - TASTE ANALYSIS:**" c = 0 ->
  count "**STEP 2 - BOOK RECOMMENDATIONS:**" c = 0 ->
  count (GPTService.clean_content content) c = count content c.
Proof.
  intros _ Hs H1 H2 H3. unfold GPTService.clean_content.
  assert (H0 : count "```" c = 0).
  { pose proof (count_take_le 3 "```json" c) as Hle.
    change (take 3 "```json") with "```" in Hle.
    pose proof (count_nonneg "```" c). lia. }
  rewrite !count_replace by (assumption || reflexivity || discriminate).
  unfold strip. now rewrite count_rstrip, count_lstrip.
Qed.

Lemma clean_content_keeps_witness :
  count (GPTService.clean_content reply_with_three_entries) DQUOTE =
  count reply_with_three_entries DQUOTE /\
  count (GPTService.clean_content reply_with_three_entries) (chr 91) =
  count reply_with_three_entries (chr 91) /\
  count (GPTService.clean_content reply_with_three_entries) (chr 44) =
  count reply_with_three_entries (chr 44).
Proof.
  split; [|split];
    apply (clean_content_keeps reply_with_three_entries); reflexivity.
Defined.

(** ** Text around the object *)

Lemma from_first_brace_app (pre r : string) :
  count pre LBRACE = 0 ->
  from_first_brace (pre ++ String LBRACE r) = String LBRACE r.
Proof.
  induction pre as [|a pre IH]; intros H.
  - cbn [append from_first_brace]. now rewrite Ascii.eqb_refl.
  - cbn [count] in H. pose proof (count_nonneg pre LBRACE).
    cbn [append from_first_brace]. destruct (Ascii.eqb a LBRACE); [lia|].
    apply IH. lia.
Qed.

Lemma first_object_app (s t o : string) (depth : Z) :
  first_object s depth = Some o -> first_object (s ++ t) depth = Some o.
Proof.
  revert o depth; induction s as [|c s IH]; intros o depth H; [discriminate|].
  cbn [append first_object] in *.
  assert (step : forall d, option_map (String c) (first_object s d) = Some o ->
                           option_map (String c) (first_object (s ++ t) d) = Some o).
  { intros d Hd. destruct (first_object s d) as [o'|] eqn:E; [|discriminate].
    now rewrite (IH o' d E). }
  destruct (Ascii.eqb c LBRACE); [now apply step|].
  destruct (Ascii.eqb c RBRACE); [|now apply step].
  destruct (depth - 1 =? 0); [exact H|now apply step].
Qed.

(** X18. Text before the first opening brace and text after the brace
    that closes the object play no part: when the cleaned reply is some
    brace-free text, then one complete object, then anything, the decoder
    is given the repaired object alone. *)
Theorem surrounding_text_is_ignored
    (json_loads : string -> option json) (content pre o' post : string) :
  let o := String LBRACE o' in
  GPTService.clean_content content = pre ++ o ++ post ->
  count pre LBRACE = 0 ->
  first_object o 0 = Some o ->
  GPTService.extract_data json_loads content =
  (data <- GPTService.loads json_loads (GPTService.repair_json o) ;;
   Return (Some data)).
Proof.
  intros o Hc Hpre Ho. apply extract_data_some. rewrite Hc.
  subst o. cbn [append]. rewrite (from_first_brace_app pre _ Hpre).
  change (String LBRACE (o' ++ post)) with (String LBRACE o' ++ post).
  now apply first_object_app.
Qed.

Lemma surrounding_text_is_ignored_witness :
  GPTService.extract_data JsonSubset.loads
    (dq "Here is the JSON: {'unified_recommendations': []} Hope it helps!") =
  Return (Some (JDict [("unified_recommendations", JList [])])).
Proof.
  apply (surrounding_text_is_ignored JsonSubset.loads
           (dq "Here is the JSON: {'unified_recommendations': []} Hope it helps!")
           "Here is the JSON: " (dq "'unified_recommendations': []}")
           " Hope it helps!"); reflexivity.
Defined.

Lemma prefix_app (old rest : string) : String.prefix old (old ++ rest) = true.
Proof.
  induction old as [|a old IH]; [apply prefix_nil|].
  cbn [append String.prefix]. now destruct (Ascii.ascii_dec a a).
Qed.

Lemma replace_from_skip (old new p rest : string) :
  replace_from old new (p ++ rest) (String.length p) = replace_from old new rest 0.
Proof. induction p as [|a p IH]; [now destruct rest|exact IH]. Qed.

Lemma replace_prefix (old' new rest : string) (b : ascii) :
  replace (String b old' ++ rest) (String b old') new =
  new ++ replace rest (String b old') new.
Proof.
  unfold replace. change (String b old' ++ rest) with (String b (old' ++ rest)).
  cbn [replace_from].
  change (String b (old' ++ rest)) with (String b old' ++ rest).
  rewrite prefix_app. cbn [String.length].
  replace (S (String.length old') - 1)%nat with (String.length old') by lia.
  now rewrite replace_from_skip.
Qed.

Lemma replace_app_absent (a b old' new : string) (c : ascii) :
  count a c = 0 ->
  replace (a ++ b) (String c old') new = a ++ replace b (String c old') new.
Proof.
  unfold replace. induction a as [|x a IH]; intros H; [reflexivity|].
  cbn [count] in H. pose proof (count_nonneg a c).
  destruct (Ascii.eqb x c) eqn:E; [lia|].
  cbn [append replace_from String.prefix].
  destruct (Ascii.ascii_dec c x) as [->|ne]; [now rewrite Ascii.eqb_refl in E|].
  rewrite IH by lia. reflexivity.
Qed.

Lemma append_nil_r (s : string) : s ++ EmptyString = s.
Proof. induction s as [|c s IH]; [reflexivity|cbn [append]; now rewrite IH]. Qed.

Lemma rstrip_app (s t : string) :
  rstrip t = t -> t <> EmptyString -> rstrip (s ++ t) = s ++ t.
Proof.
  intros Ht Hne. induction s as [|a s IH]; [exact Ht|].
  cbn [append rstrip]. rewrite IH.
  destruct (s ++ t) eqn:E; [|reflexivity].
  destruct s; [cbn in E; congruence|discriminate].
Qed.

(** A markdown fence around a body without backticks and asterisks is
    taken off by the clean-up, which leaves the body as it is. *)
Lemma clean_content_fenced (body : string) :
  count body BACKTICK = 0 -> count body ASTERISK = 0 ->
  GPTService.clean_content ("```json" ++ body ++ "```") = body.
Proof.
  intros Hb Ha. unfold GPTService.clean_content.
  assert (Hs : strip ("```json" ++ body ++ "```") = "```json" ++ body ++ "```").
  { unfold strip. cbn [append lstrip].
    change (isspace "`") with false. cbv iota.
    change (String "`" (String "`" (String "`" (String "j" (String "s"
              (String "o" (String "n" (body ++ "```"))))))))
      with (("```json" ++ body) ++ "```").
    rewrite rstrip_app by (reflexivity || discriminate).
    apply append_assoc. }
  rewrite Hs.
  change "```json" with (String BACKTICK "``json") at 2.
  change ("```json" ++ body ++ "```") with (String BACKTICK "``json" ++ body ++ "```").
  rewrite replace_prefix. cbn [append].
  rewrite (replace_app_absent body _ _ _ BACKTICK Hb).
  change (replace "```" (String BACKTICK "``json") EmptyString) with "```".
  change "```" with (String BACKTICK "``") at 2.
  rewrite (replace_app_absent body _ _ _ BACKTICK Hb).
  change (replace "```" (String BACKTICK "``") EmptyString) with EmptyString.
  rewrite append_nil_r.
  change "**STEP 1 - TASTE ANALYSIS:**"
    with (String ASTERISK "*STEP 1 - TASTE ANALYSIS:**").
  change "**STEP 2 - BOOK RECOMMENDATIONS:**"
    with (String ASTERISK "*STEP 2 - BOOK RECOMMENDATIONS:**").
  rewrite (replace_absent body _ _ ASTERISK Ha).
  now rewrite (replace_absent body _ _ ASTERISK Ha).
Qed.

(** X19. A reply wrapped in a markdown json fence is unwrapped: for a body
    without backticks and asterisks the clean-up of the fenced reply is the
    body itself, and when the body is some brace-free text, one complete
    object and anything after it, the decoder is given that object,
    repaired. *)
Theorem fenced_reply_is_unwrapped
    (json_loads : string -> option json) (body pre o' post : string) :
  let o := String LBRACE o' in
  count body BACKTICK = 0 -> count body ASTERISK = 0 ->
  body = pre ++ o ++ post ->
  count pre LBRACE = 0 ->
  first_object o 0 = Some o ->
  GPTService.clean_content ("```json" ++ body ++ "```") = body /\
  GPTService.extract_data json_loads ("```json" ++ body ++ "```") =
  (data <- GPTService.loads json_loads (GPTService.repair_json o) ;;
   Return (Some data)).
Proof.
  intros o Hb Ha Hbody Hpre Ho.
  pose proof (clean_content_fenced body Hb Ha) as Hc.
  split; [exact Hc|]. apply extract_data_some. rewrite Hc, Hbody.
  subst o. cbn [append]. rewrite (from_first_brace_app pre _ Hpre).
  change (String LBRACE (o' ++ post)) with (String LBRACE o' ++ post).
  now apply first_object_app.
Qed.

Lemma fenced_reply_is_unwrapped_witness :
  GPTService.extract_data JsonSubset.loads
    ("```json" ++ (NL ++ dq "{'unified_recommendations': []}" ++ NL) ++ "```") =
  Return (Some (JDict [("unified_recommendations", JList [])])).
Proof.
  apply (fenced_reply_is_unwrapped JsonSubset.loads
           (NL ++ dq "{'unified_recommendations': []}" ++ NL)
           NL (dq "'unified_recommendations': []}") NL); reflexivity.
Defined.

(** ** The prompt and the parser agree *)

(** X20. The example object that [_get_json_schema] puts into the prompt
    has the shape the parser reads: echoed as a reply, it passes the
    clean-up, the extraction and the repair, and, the decoder giving the
    object it denotes, the parser returns the example book and the example
    profile with nothing skipped and nothing defaulted. *)
Theorem schema_is_accepted_by_parser
    (json_loads : string -> option json) (movies : list string) (s : string) :
  json_loads (GPTService.repair_json GPTService._get_json_schema) = Some schema_value ->
  GPTService._create_movie_summary movies (JDict []) = Return s ->
  GPTService._parse_unified_response json_loads
    (Some GPTService._get_json_schema) movies =
  Return [ {| movie := s;
              books := books schema_response;
              taste_profile := taste_profile schema_response |} ].
Proof.
  intros H Hs.
  assert (Hx : GPTService.extract_data json_loads GPTService._get_json_schema =
               Return (Some schema_value)).
  { rewrite (extract_data_some json_loads _ GPTService._get_json_schema)
      by (vm_compute; reflexivity).
    unfold GPTService.loads. now rewrite H. }
  eapply (parse_success json_loads _ movies _ _ _ _ _ _ s Hx);
    try reflexivity. exact Hs.
Qed.

Lemma schema_is_accepted_by_parser_witness :
  GPTService._parse_unified_response JsonSubset.loads
    (Some GPTService._get_json_schema) ["Inception"] =
  Return [schema_response].
Proof.
  apply (schema_is_accepted_by_parser JsonSubset.loads ["Inception"]
           "Based on your interest in Inception").
  - vm_compute. reflexivity.
  - reflexivity.
Defined.

(** ** Every title reaches the model and the summary *)

Lemma occurs_in_refl_app (a m b : string) : occurs_in m (a ++ m ++ b).
Proof. now exists a, b. Qed.

Lemma occurs_in_after (m s a : string) : occurs_in m s -> occurs_in m (a ++ s).
Proof.
  intros [x [y ->]]. exists (a ++ x), y. now rewrite !append_assoc.
Qed.

Lemma occurs_in_before (m s b : string) : occurs_in m s -> occurs_in m (s ++ b).
Proof.
  intros [x [y ->]]. exists x, (y ++ b). now rewrite !append_assoc.
Qed.

Lemma occurs_in_join (sep m : string) (l : list string) :
  In m l -> occurs_in m (join sep l).
Proof.
  induction l as [|p l IH]; intros H; [destruct H|].
  destruct l as [|q l].
  - destruct H as [->|[]]. exists EmptyString, EmptyString.
    cbn [join append]. now rewrite append_nil_r.
  - change (join sep (p :: q :: l)) with (p ++ sep ++ join sep (q :: l)).
    destruct H as [->|H].
    + exists EmptyString, (sep ++ join sep (q :: l)). reflexivity.
    + destruct (IH H) as [x [y E]]. rewrite E.
      exists (p ++ sep ++ x), y. now rewrite !append_assoc.
Qed.

(** X21. Every movie title handed to the service is written into the
    prompt of the generator and into the prompt of the analyzer. *)
Theorem prompts_mention_every_title
    (settings : Settings) (movies : list string)
    (preferences : option UserPreferences) (m : string) :
  In m movies ->
  occurs_in m (GPTService._build_unified_prompt settings movies preferences) /\
  occurs_in m (GPTService.analysis_prompt movies).
Proof.
  intros H. split.
  - unfold GPTService._build_unified_prompt. cbv zeta.
    rewrite !append_assoc. apply occurs_in_before.
    unfold GPTService.analysis_instruction.
    destruct movies as [|a [|b rest]]; [destruct H| |].
    + destruct H as [->|[]]. apply occurs_in_refl_app.
    + apply occurs_in_after. now apply occurs_in_join.
  - unfold GPTService.analysis_prompt. cbv zeta.
    apply occurs_in_after, occurs_in_before. now apply occurs_in_join.
Qed.

Lemma prompts_mention_every_title_witness :
  occurs_in "Ronin" (GPTService._build_unified_prompt demo_settings
                       ["Heat"; "Ronin"; "Drive"] None) /\
  occurs_in "Ronin" (GPTService.analysis_prompt ["Heat"; "Ronin"; "Drive"]).
Proof.
  apply (prompts_mention_every_title demo_settings ["Heat"; "Ronin"; "Drive"] None "Ronin").
  right. left. reflexivity.
Defined.

(** X22. The summary names every movie of the list. *)
Theorem summary_mentions_every_title
    (movies : list string) (tp : json) (s m : string) :
  GPTService._create_movie_summary movies tp = Return s ->
  In m movies -> occurs_in m s.
Proof.
  intros Hs H. destruct movies as [|a [|b [|c rest]]].
  - destruct H.
  - change (Return ("Based on your interest in " ++ a) = Return s) in Hs.
    assert (E : s = "Based on your interest in " ++ a) by congruence.
    rewrite E. destruct H as [->|[]].
    apply occurs_in_after. exists EmptyString, EmptyString.
    cbn [append]. now rewrite append_nil_r.
  - change (Return ("Based on your taste for " ++ a ++ " and " ++ b) = Return s) in Hs.
    assert (E : s = "Based on your taste for " ++ a ++ " and " ++ b) by congruence.
    rewrite E. destruct H as [->|[->|[]]].
    + apply occurs_in_after. exists EmptyString, (" and " ++ b). reflexivity.
    + do 3 apply occurs_in_after. exists EmptyString, EmptyString.
      cbn [append]. now rewrite append_nil_r.
  - set (l := a :: b :: c :: rest) in *.
    assert (Hne : l <> []) by discriminate.
    change (Return ("Based on your taste profile from " ++
                    join ", " (List.removelast l) ++ ", and " ++ List.last l a)
            = Return s) in Hs.
    assert (E : s = "Based on your taste profile from " ++
                    join ", " (List.removelast l) ++ ", and " ++ List.last l a)
      by congruence.
    rewrite E. rewrite (app_removelast_last a Hne) in H.
    apply in_app_or in H. destruct H as [H|[<-|[]]].
    + apply occurs_in_after, occurs_in_before. now apply occurs_in_join.
    + do 3 apply occurs_in_after. exists EmptyString, EmptyString.
      cbn [append]. now rewrite append_nil_r.
Qed.

Lemma summary_mentions_every_title_witness :
  occurs_in "Ronin" "Based on your taste profile from Heat, Ronin, and Drive".
Proof.
  apply (summary_mentions_every_title ["Heat"; "Ronin"; "Drive"] JNull
           "Based on your taste profile from Heat, Ronin, and Drive" "Ronin").
  - reflexivity.
  - right. left. reflexivity.
Defined.

(** * The profile of a response and where it comes from *)

Lemma as_str_inv (v : json) (s : string) : as_str v = Return s -> v = JStr s.
Proof. destruct v; cbn; congruence. Qed.

Lemma as_float_inv (v : json) (q : Q) : as_float v = Return q -> v = JNum q.
Proof. destruct v; cbn; congruence. Qed.

Lemma as_str_list_items_inv (l : list json) (r : list string) :
  as_str_list_items l = Return r -> l = map JStr r.
Proof.
  revert r; induction l as [|v l IH]; intros r H.
  - cbn in H. injection H as <-. reflexivity.
  - cbn [as_str_list_items] in H.
    destruct (as_str v) as [s|] eqn:Es; [|discriminate]. cbn [bind] in H.
    destruct (as_str_list_items l) as [r'|]; [|discriminate]. cbn [bind] in H.
    injection H as <-. apply as_str_inv in Es. subst v.
    cbn [map]. now rewrite (IH r' eq_refl).
Qed.

Lemma as_str_list_items_map (r : list string) :
  as_str_list_items (map JStr r) = Return r.
Proof.
  induction r as [|s r IH]; [reflexivity|].
  cbn [map as_str_list_items as_str bind]. now rewrite IH.
Qed.

Lemma as_str_list_inv (v : json) (r : list string) :
  as_str_list v = Return r -> v = themes_json r.
Proof.
  destruct v; cbn [as_str_list]; try discriminate.
  intros H. unfold themes_json. f_equal. now apply as_str_list_items_inv.
Qed.

Lemma field_reads_get {A : Type} (tpd : list (string * json)) (key : string)
    (to_json : A -> json) (default value : A) :
  field_reads tpd key to_json default value ->
  dict_get tpd key (to_json default) = to_json value.
Proof.
  unfold field_reads, dict_get. destruct (dict_lookup tpd key); congruence.
Qed.

Lemma get_field_reads {A : Type} (tpd : list (string * json)) (key : string)
    (to_json : A -> json) (default value : A) :
  (forall x y, to_json x = to_json y -> x = y) ->
  dict_get tpd key (to_json default) = to_json value ->
  field_reads tpd key to_json default value.
Proof.
  intros Hinj. unfold field_reads, dict_get.
  destruct (dict_lookup tpd key); [congruence|].
  intros H. symmetry. now apply Hinj.
Qed.

Lemma map_JStr_inj (x y : list string) : map JStr x = map JStr y -> x = y.
Proof.
  revert y; induction x as [|a x IH]; intros [|b y] H; try discriminate.
  - reflexivity.
  - cbn [map] in H. injection H as -> H. f_equal. now apply IH.
Qed.

(** The builder of the profile accepts an object exactly when every field
    under a key has the type of the field, and then the profile holds the
    values under the keys and the defaults for the rest. *)
Lemma build_taste_profile_reads (tpd : list (string * json)) (tp : TasteProfile) :
  GPTService.build_taste_profile tpd = Return tp <-> profile_reads tpd tp.
Proof.
  unfold GPTService.build_taste_profile, GPTService.field_arg, profile_reads.
  cbn [GPTService.field_key GPTService.field_default]. split.
  - unfold TasteProfile_init. intros H.
    destruct (as_str_list _) as [th|] eqn:E1; [|discriminate]. cbn [bind] in H.
    destruct (as_str (dict_get tpd "narrative_style" _)) as [ns|] eqn:E2;
      [|discriminate]. cbn [bind] in H.
    destruct (as_str (dict_get tpd "emotional_tone" _)) as [et|] eqn:E3;
      [|discriminate]. cbn [bind] in H.
    destruct (as_str (dict_get tpd "genre_fusion" _)) as [gf|] eqn:E4;
      [|discriminate]. cbn [bind] in H.
    destruct (as_str (dict_get tpd "character_preferences" _)) as [cp|] eqn:E5;
      [|discriminate]. cbn [bind] in H.
    destruct (as_str (dict_get tpd "artistic_sensibilities" _)) as [ar|] eqn:E6;
      [|discriminate]. cbn [bind] in H.
    destruct (as_float _) as [cs|] eqn:E7; [|discriminate]. cbn [bind] in H.
    injection H as <-. cbn.
    apply as_str_list_inv in E1. apply as_str_inv in E2, E3, E4, E5, E6.
    apply as_float_inv in E7.
    repeat split.
    + apply get_field_reads; [|exact E1].
      intros x y Hxy. unfold themes_json in Hxy. injection Hxy as Hxy.
      now apply map_JStr_inj.
    + apply get_field_reads; [congruence|exact E2].
    + apply get_field_reads; [congruence|exact E3].
    + apply get_field_reads; [congruence|exact E4].
    + apply get_field_reads; [congruence|exact E5].
    + apply get_field_reads; [congruence|exact E6].
    + apply get_field_reads; [congruence|exact E7].
  - intros [H1 [H2 [H3 [H4 [H5 [H6 H7]]]]]].
    apply field_reads_get in H1, H2, H3, H4, H5, H6, H7.
    change (themes_json []) with (JList []) in H1.
    rewrite H1, H2, H3, H4, H5, H6, H7.
    unfold TasteProfile_init, themes_json. cbn [as_str_list as_str as_float bind].
    rewrite as_str_list_items_map. cbn [bind]. now destruct tp.
Qed.

Lemma collect_books_of_strings (l : list json) :
  Forall (fun v => is_object v = false) l ->
  forall b bs, GPTService.collect_books l [] <> Return (b :: bs).
Proof.
  intros H b bs. destruct l as [|v l]; [discriminate|].
  inversion H as [|? ? Hv _]; subst.
  cbn [GPTService.collect_books]. destruct v; try discriminate.
Qed.

(** What a returned value of the second half of the parser is: the
    fallback, or one response read from the decoded object. *)
Lemma build_response_returns (data : json) (movies : list string)
    (out : list RecommendationResponse) :
  GPTService.build_response data movies = Return out ->
  GPTService._create_fallback_response movies = Return out \/
  exists r d entries tpd,
    out = [r] /\ data = JDict d /\
    dict_lookup d "unified_recommendations" = Some (JList entries) /\
    GPTService.collect_books entries [] = Return (books r) /\
    books r <> [] /\
    dict_get d "taste_profile" (JDict []) = JDict tpd /\
    GPTService.build_taste_profile tpd = Return (taste_profile r) /\
    GPTService._create_movie_summary movies (JDict []) = Return (movie r).
Proof.
  unfold GPTService.build_response.
  destruct data as [| | | | |d];
    try (cbn [GPTService.contains bind]; discriminate).
  - cbn [GPTService.contains bind].
    destruct (match String.index _ _ _ with Some _ => true | None => false end);
      cbn [negb as_dict bind]; [discriminate|now left].
  - cbn [GPTService.contains bind].
    destruct (existsb _ items); cbn [negb as_dict bind]; [discriminate|now left].
  - cbn [GPTService.contains bind as_dict]. unfold dict_has.
    destruct (dict_lookup d "unified_recommendations") as [v|] eqn:Hl;
      cbn [negb]; [|now left].
    unfold dict_get at 1. rewrite Hl.
    assert (Hnl : is_list v = false ->
                  forall entries b bs, py_iter v = Return entries ->
                    GPTService.collect_books entries [] <> Return (b :: bs)).
    { intros Hv entries b bs Hi. apply collect_books_of_strings.
      destruct v; try discriminate; cbn [py_iter] in Hi; injection Hi as <-;
        apply Forall_forall; intros x Hx; apply in_map_iff in Hx;
        destruct Hx as [y [<- _]]; reflexivity. }
    destruct (py_iter v) as [entries|] eqn:Hi; [|discriminate]. cbn [bind].
    destruct (GPTService.collect_books entries []) as [ub|] eqn:Hc; [|discriminate].
    cbn [bind]. destruct ub as [|b ub]; [now left|].
    destruct (is_list v) eqn:Hv;
      [|exfalso; now apply (Hnl eq_refl entries b ub eq_refl)].
    destruct v; try discriminate. cbn [py_iter] in Hi. injection Hi as ->.
    destruct (dict_get d "taste_profile" (JDict [])) as [| | | | |tpd] eqn:Ht;
      try discriminate. cbn [as_dict bind].
    destruct (GPTService.build_taste_profile tpd) as [tp|] eqn:Hb; [|discriminate].
    cbn [bind].
    rewrite (summary_ignores_profile movies (JDict tpd) (JDict [])).
    destruct (GPTService._create_movie_summary movies (JDict [])) as [s|] eqn:Hs;
      [|discriminate].
    cbn [bind]. intros H. injection H as <-. right.
    exists {| movie := s; books := b :: ub; taste_profile := tp |}, d, entries, tpd.
    cbn [books movie taste_profile]. repeat split; try assumption; try reflexivity.
    discriminate.
Qed.

Lemma parse_returns (json_loads : string -> option json)
    (content : option string) (movies : list string)
    (out : list RecommendationResponse) :
  GPTService._parse_unified_response json_loads content movies = Return out ->
  GPTService._create_fallback_response movies = Return out \/
  exists c r,
    content = Some c /\ out = [r] /\
    GPTService._create_movie_summary movies (JDict []) = Return (movie r) /\
    books r <> [] /\ parsed_from json_loads c r.
Proof.
  unfold GPTService._parse_unified_response.
  destruct (GPTService.parse_body json_loads content movies) as [res|e] eqn:E.
  - intros H. injection H as <-. revert E. unfold GPTService.parse_body.
    destruct content as [c|]; [|discriminate].
    destruct (GPTService.extract_data json_loads c) as [[data|]|] eqn:Hx;
      cbn [bind]; [|now left|discriminate].
    intros Hb. apply build_response_returns in Hb.
    destruct Hb as [Hb|[r [d [entries [tpd [-> [-> [Hl [Hc [Hne [Ht [Hp Hs]]]]]]]]]]]];
      [now left|].
    right. exists c, r. split; [reflexivity|]. split; [reflexivity|].
    split; [exact Hs|]. split; [exact Hne|].
    exists d, entries, tpd. split; [exact Hx|]. split; [exact Hl|].
    split; [exact Hc|]. split; [exact Ht|].
    now apply build_taste_profile_reads.
  - intros H. left. now destruct e.
Qed.

(** C1, as the specification words it: the profile of the one response
    would always be fully populated.  It is not: a reply with a book and
    no [taste_profile] object is answered with that book and a profile
    without themes and with five empty texts. *)
Lemma blank_profile_is_returned :
  GPTService.generate_recommendations demo_settings JsonSubset.loads
    (replying (Content (Some reply_without_profile))) ["Inception"] None =
  Return [ {| movie := "Based on your interest in Inception";
              books := [dune_book];
              taste_profile := default_taste_profile |} ] /\
  fully_populated default_taste_profile = false /\
  ~ (forall settings json_loads client movies preferences,
       movies <> [] ->
       exists r,
         GPTService.generate_recommendations settings json_loads client
           movies preferences = Return [r] /\
         books r <> [] /\ fully_populated (taste_profile r) = true).
Proof.
  assert (E : GPTService.generate_recommendations demo_settings JsonSubset.loads
                (replying (Content (Some reply_without_profile))) ["Inception"] None =
              Return [ {| movie := "Based on your interest in Inception";
                          books := [dune_book];
                          taste_profile := default_taste_profile |} ])
    by (vm_compute; reflexivity).
  split; [exact E|]. split; [reflexivity|]. intros H.
  destruct (H demo_settings JsonSubset.loads
              (replying (Content (Some reply_without_profile))) ["Inception"] None
              ltac:(discriminate)) as [r [Hr [_ Hf]]].
  rewrite E in Hr. injection Hr as <-. discriminate.
Qed.

(** C1, amended. For a non-empty list of movies and any preferences,
    whatever the model replies (no content, the empty string, text that is
    not JSON, any other text) and also when the call fails,
    [generate_recommendations] returns, and what it returns is a list of
    exactly one response, with the summary of the movies and a book list
    that is not empty.  The response is either the fallback, with its three
    books and its fully populated profile, or the one parsed from the
    reply: its books are those collected from the reply, and its profile
    is read field by field from the [taste_profile] object of the reply,
    a missing field taking its default (no themes, the empty string, 0.7),
    so that this profile may have empty fields. *)
Theorem generate_recommendations_one_response
    (settings : Settings) (json_loads : string -> option json)
    (client : ChatRequest -> Completion)
    (movies : list string) (preferences : option UserPreferences) :
  movies <> [] ->
  one_response settings json_loads client movies preferences
    (GPTService.generate_recommendations settings json_loads client movies preferences).
Proof.
  intros H. destruct (fallback_of_nonempty movies H) as [s [Hs Hf]].
  assert (Fb : forall out,
            GPTService._create_fallback_response movies = Return out ->
            one_response settings json_loads client movies preferences (Return out)).
  { intros out Ho. rewrite Hf in Ho. injection Ho as <-.
    eexists. split; [reflexivity|]. cbn [movie books taste_profile].
    split; [exact Hs|]. split; [discriminate|]. left. now repeat split. }
  unfold GPTService.generate_recommendations.
  destruct (client _) as [e|content] eqn:Ec.
  - rewrite Hf. now apply Fb.
  - destruct (GPTService._parse_unified_response json_loads content movies)
      as [out|e] eqn:Ep.
    + destruct (parse_returns _ _ _ _ Ep) as [Ho|[c [r [-> [-> [Hm [Hb Hp]]]]]]].
      * now apply Fb.
      * exists r. split; [reflexivity|]. split; [exact Hm|]. split; [exact Hb|].
        right. exists c. split; [exact Ec|exact Hp].
    + rewrite Hf. now apply Fb.
Qed.

Lemma generate_recommendations_one_response_witness :
  one_response demo_settings JsonSubset.loads
    (replying (Content (Some reply_with_partial_profile))) ["Inception"] None
    (GPTService.generate_recommendations demo_settings JsonSubset.loads
       (replying (Content (Some reply_with_partial_profile))) ["Inception"] None) /\
  one_response demo_settings JsonSubset.loads
    (replying (Failed APIError)) ["Heat"; "Ronin"] None
    (GPTService.generate_recommendations demo_settings JsonSubset.loads
       (replying (Failed APIError)) ["Heat"; "Ronin"] None).
Proof.
  split.
  - apply (generate_recommendations_one_response demo_settings JsonSubset.loads
             (replying (Content (Some reply_with_partial_profile)))
             ["Inception"] None).
    discriminate.
  - apply (generate_recommendations_one_response demo_settings JsonSubset.loads
             (replying (Failed APIError)) ["Heat"; "Ronin"] None).
    discriminate.
Defined.

(** C8, amended. The taste profile of a successfully parsed reply is the
    one written in its [taste_profile] object: every field holds the value
    under its key, and a field missing from the object takes its default,
    the empty list for the themes, the empty string for the five text
    fields, 0.7 for the confidence score.  When the reply has no
    [taste_profile] object at all, every field takes its default and
    parsing still succeeds, with the books of the reply and the profile
    [default_taste_profile]. *)
Theorem taste_profile_defaults
    (json_loads : string -> option json) (content : string) (movies : list string)
    (d tpd : list (string * json)) (entries : list json)
    (b : BookRecommendation) (bs : list BookRecommendation)
    (tp : TasteProfile) (s : string) :
  (forall f, dict_has tpd (GPTService.field_key f) = false ->
             GPTService.field_arg tpd f = GPTService.field_default f) /\
  (forall f, GPTService.field_default f =
             match f with
             | Themes => JList []
             | ConfidenceScore => JNum (7 # 10)
             | _ => JStr EmptyString
             end) /\
  (GPTService.build_taste_profile tpd = Return tp <-> profile_reads tpd tp) /\
  GPTService.build_taste_profile [] = Return default_taste_profile /\
  (GPTService.extract_data json_loads content = Return (Some (JDict d)) ->
   dict_lookup d "unified_recommendations" = Some (JList entries) ->
   GPTService.collect_books entries [] = Return (b :: bs) ->
   GPTService._create_movie_summary movies (JDict []) = Return s ->
   (dict_lookup d "taste_profile" = Some (JDict tpd) ->
    profile_reads tpd tp ->
    GPTService._parse_unified_response json_loads (Some content) movies =
    Return [ {| movie := s; books := b :: bs; taste_profile := tp |} ]) /\
   (dict_lookup d "taste_profile" = None ->
    GPTService._parse_unified_response json_loads (Some content) movies =
    Return [ {| movie := s; books := b :: bs;
                taste_profile := default_taste_profile |} ])).
Proof.
  split; [intros f; apply field_arg_missing|].
  split; [now intros []|].
  split; [apply build_taste_profile_reads|]. split; [reflexivity|].
  intros Hx Hl Hc Hs. split.
  - intros Ht Hp. apply build_taste_profile_reads in Hp.
    apply (parse_success json_loads content movies d tpd entries b bs tp s);
      try assumption.
    unfold dict_get. now rewrite Ht.
  - intros Ht.
    apply (parse_success json_loads content movies d [] entries b bs
             default_taste_profile s); try assumption; [|reflexivity].
    unfold dict_get. now rewrite Ht.
Qed.

Lemma taste_profile_defaults_witness :
  GPTService._parse_unified_response JsonSubset.loads
    (Some reply_with_partial_profile) ["Inception"] =
  Return [ {| movie := "Based on your interest in Inception";
              books := [dune_book];
              taste_profile := partial_profile |} ].
Proof.
  refine (proj1 (proj2 (proj2 (proj2 (proj2 (taste_profile_defaults JsonSubset.loads
           reply_with_partial_profile ["Inception"]
           [("unified_recommendations",
             JList [JDict [("title", JStr "Dune"); ("author", JStr "Frank Herbert")]]);
            ("taste_profile",
             JDict [("themes", JList [JStr "ecology"]);
                    ("emotional_tone", JStr "austere")])]
           [("themes", JList [JStr "ecology"]); ("emotional_tone", JStr "austere")]
           [JDict [("title", JStr "Dune"); ("author", JStr "Frank Herbert")]]
           dune_book [] partial_profile "Based on your interest in Inception"))))
         _ eq_refl eq_refl eq_refl) eq_refl _).
  - vm_compute. reflexivity.
  - repeat split.
Defined.

(** * A cut string value that the repair closes *)



(** By contrast, a reply cut inside an object whose braces never close
    does not reach the repair: the parser answers it with the fallback. *)
Lemma reply_cut_inside_object_is_fallback
    (json_loads : string -> option json) (movies : list string) :
  count truncated_reply DQUOTE mod 2 = 1 /\
  GPTService.extract_data json_loads truncated_reply = Return None /\
  GPTService._parse_unified_response json_loads (Some truncated_reply) movies =
  GPTService._create_fallback_response movies.
Proof.
  assert (H : returns_to_zero (from_first_brace truncated_reply) 0 = false)
    by (vm_compute; reflexivity).
  split; [vm_compute; reflexivity|].
  split; [now apply extract_data_unclosed|now apply parse_unclosed].
Qed.
